(** * GeoBrent dashboard: change-point window analysis and correlation views

    A shallow embedding of the analytics that the dashboard front end
    computes in the browser:

    - [ChangePointsView] (the component defined after the sidebar in
      [components/Sidebar.js]): threshold filtering of change points,
      the before/after window analysis around a change point and the
      confidence histogram; then the summary statistics, the marked
      price series and the period-comparison panel with the selection
      that drives it;
    - [CorrelationAnalysis] (the correlation component): the correlation
      matrix and its heat map, the event-impact table and the time-period
      table.

    JavaScript numbers are IEEE 754 binary64 values, so they are embedded
    as Rocq's primitive floats, whose operations are the same binary64
    operations.  [Number.prototype.toFixed] is embedded by exact integer
    arithmetic on the decoded float.  [Math.random] is embedded as a read
    from an explicit stream of draws that is threaded through the code. *)

From Stdlib Require Import ZArith List Bool Floats String Ascii Lia.
From Stdlib Require Import DecimalString.
From Stdlib Require Import Sorted Permutation.
Import ListNotations.

Set Warnings "-inexact-float".

Local Open Scope float_scope.

(** ** JavaScript numbers *)

Module JS.

(** A JavaScript Number. *)
Definition number := float.

(** The Number of an array length or of a counter. *)
Definition ofNat (n : nat) : number :=
  of_uint63 (Uint63.of_Z (Z.of_nat n)).

(** [x >= y], [x > y], [x <= y], [x < y] of JavaScript: all false as soon
    as one side is NaN. *)
Definition ge (x y : number) : bool := y <=? x.
Definition gt (x y : number) : bool := y <? x.
Definition le (x y : number) : bool := x <=? y.
Definition lt (x y : number) : bool := x <? y.

(** [Math.pow(x, 2)]: the square. *)
Definition pow2 (x : number) : number := x * x.

(** [Number.isFinite]. *)
Definition isFinite (x : number) : bool :=
  match Prim2SF x with
  | S754_zero _ | S754_finite _ _ _ => true
  | S754_infinity _ | S754_nan => false
  end.

Definition isNaN (x : number) : bool :=
  match Prim2SF x with
  | S754_nan => true
  | _ => false
  end.

(** *** Decimal rendering *)

(** The decimal digits of a natural integer, ["0"] for zero. *)
Definition digits (n : Z) : string :=
  NilZero.string_of_uint (N.to_uint (Z.to_N n)).

Fixpoint zeros (k : nat) : string :=
  match k with
  | O => EmptyString
  | S k' => String "0" (zeros k')
  end.

Fixpoint takeS (k : nat) (s : string) : string :=
  match k, s with
  | S k', String c s' => String c (takeS k' s')
  | _, _ => EmptyString
  end.

Fixpoint dropS (k : nat) (s : string) : string :=
  match k, s with
  | S k', String _ s' => dropS k' s'
  | _, _ => s
  end.

(** Step 11 of [Number.prototype.toFixed]: the integer [n] printed with
    [f] digits after the point. *)
Definition fixedPoint (n : Z) (f : nat) : string :=
  let m := digits n in
  match f with
  | O => m
  | _ =>
      let m' := if Nat.leb (String.length m) f
                then (zeros (S f - String.length m) ++ m)%string
                else m in
      let k := String.length m' in
      (takeS (k - f) m' ++ "." ++ dropS (k - f) m')%string
  end.

(** The integer [n] for which [n / 10^f - x] is closest to zero, the
    larger one on a tie, for [x = m * 2^e]. *)
Definition nearestScaled (m : positive) (e : Z) (f : nat) : Z :=
  let s := (Z.pos m * 10 ^ Z.of_nat f)%Z in
  if (0 <=? e)%Z then (s * 2 ^ e)%Z
  else ((2 * s + 2 ^ (- e)) / 2 ^ (- e + 1))%Z.

(** [Number::toString] of a finite integral value [x = m * 2^e] that is at
    least [10^21]: the shortest decimal that reads back as [x], in
    exponential notation.  [lo] and [hi] delimit the reals that round to
    [x]; the bounds belong to the interval when the mantissa is even. *)
Definition roundsTo (m : positive) (e : Z) (c : Z) : bool :=
  let x := (Z.pos m * 2 ^ e)%Z in
  let up := (2 ^ (e - 1))%Z in
  let down := if (Z.pos m =? 2 ^ 52)%Z then (2 ^ (e - 2))%Z else (2 ^ (e - 1))%Z in
  if Z.even (Z.pos m)
  then ((x - down <=? c) && (c <=? x + up))%Z
  else ((x - down <? c) && (c <? x + up))%Z.

Definition candidateAt (m : positive) (e : Z) (p : Z) : option Z :=
  let x := (Z.pos m * 2 ^ e)%Z in
  let c1 := (x / 10 ^ p * 10 ^ p)%Z in
  let c2 := (c1 + 10 ^ p)%Z in
  let ok1 := roundsTo m e c1 in
  let ok2 := roundsTo m e c2 in
  match ok1, ok2 with
  | true, true =>
      if (x - c1 <? c2 - x)%Z then Some c1
      else if (c2 - x <? x - c1)%Z then Some c2
      else if Z.even (c1 / 10 ^ p) then Some c1 else Some c2
  | true, false => Some c1
  | false, true => Some c2
  | false, false => None
  end.

Fixpoint shortest (m : positive) (e : Z) (p : nat) : Z * Z :=
  match candidateAt m e (Z.of_nat p) with
  | Some c => (c, Z.of_nat p)
  | None =>
      match p with
      | O => ((Z.pos m * 2 ^ e)%Z, 0%Z)
      | S p' => shortest m e p'
      end
  end.

Definition toStringLarge (m : positive) (e : Z) : string :=
  let x := (Z.pos m * 2 ^ e)%Z in
  let '(c, p) := shortest m e (String.length (digits x)) in
  let n := String.length (digits c) in
  let s := digits (c / 10 ^ p) in
  let expo := digits (Z.of_nat (n - 1)) in
  match s with
  | String d EmptyString => (String d "e+" ++ expo)%string
  | String d rest => (String d ("." ++ rest) ++ "e+" ++ expo)%string
  | EmptyString => EmptyString
  end.

(** [x.toFixed(f)] for [0 <= f <= 100]. *)
Definition toFixed (x : number) (f : nat) : string :=
  match Prim2SF x with
  | S754_nan => "NaN"
  | S754_infinity false => "Infinity"
  | S754_infinity true => "-Infinity"
  | S754_zero _ => fixedPoint 0 f
  | S754_finite s m e =>
      let sign := if s then "-"%string else EmptyString in
      let body :=
        if (10 ^ 21 <=? Z.pos m * 2 ^ e)%Z && (0 <=? e)%Z
        then toStringLarge m e
        else fixedPoint (nearestScaled m e f) f in
      (sign ++ body)%string
  end.

(** *** Dates *)

(** The Number of an integer (exact below [2^53] in magnitude). *)
Definition ofZ (z : Z) : number :=
  if (z <? 0)%Z then - of_uint63 (Uint63.of_Z (- z))
  else of_uint63 (Uint63.of_Z z).

Definition digitOf (c : ascii) : option Z :=
  let n := nat_of_ascii c in
  if (48 <=? n)%nat && (n <=? 57)%nat then Some (Z.of_nat (n - 48)) else None.

Fixpoint numeral (s : string) (acc : Z) : option Z :=
  match s with
  | EmptyString => Some acc
  | String c s' =>
      match digitOf c with
      | Some d => numeral s' (10 * acc + d)
      | None => None
      end
  end.

Definition isLeap (y : Z) : bool :=
  ((y mod 4 =? 0) && negb (y mod 100 =? 0) || (y mod 400 =? 0))%Z.

Definition daysInMonth (y m : Z) : Z :=
  if (m =? 2)%Z then (if isLeap y then 29 else 28)%Z
  else if ((m =? 4) || (m =? 6) || (m =? 9) || (m =? 11))%Z then 30%Z
  else 31%Z.

(** Days from 1970-01-01 to the civil date [y]-[m]-[d]. *)
Definition daysFromCivil (y m d : Z) : Z :=
  let y' := (if m <=? 2 then y - 1 else y)%Z in
  let era := (y' / 400)%Z in
  let yoe := (y' - era * 400)%Z in
  let mp := ((m + 9) mod 12)%Z in
  let doy := ((153 * mp + 2) / 5 + d - 1)%Z in
  let doe := (yoe * 365 + yoe / 4 - yoe / 100 + doy)%Z in
  (era * 146097 + doe - 719468)%Z.

(** [new Date(s)] for a date-only ISO text [YYYY-MM-DD], which JavaScript
    reads as midnight UTC of that day; every other text is taken as not a
    date (NaN) by this reader. *)
Definition isoDate (s : string) : number :=
  match s with
  | String y1 (String y2 (String y3 (String y4 (String "-"
      (String m1 (String m2 (String "-" (String d1 (String d2 EmptyString))))))))) =>
      match numeral (String y1 (String y2 (String y3 (String y4 EmptyString)))) 0,
            numeral (String m1 (String m2 EmptyString)) 0,
            numeral (String d1 (String d2 EmptyString)) 0 with
      | Some y, Some m, Some d =>
          if ((1 <=? m) && (m <=? 12) && (1 <=? d) && (d <=? daysInMonth y m))%Z
          then ofZ (daysFromCivil y m d * 86400000)
          else nan
      | _, _, _ => nan
      end
  | _ => nan
  end.

End JS.

(** ** Records delivered by the API *)

Module Api.

Import JS.

(** A price, a change point and a geopolitical event, with the fields the
    two views read; a date is the text handed to [new Date]. *)
Record PricePoint := { p_date : string; price : number }.

Record ChangePoint := {
  cp_date : string;
  confidence : number;
  cp_type : string
}.

Record GeoEvent := { e_date : string; e_type : string }.

End Api.

(** ** The change-points view *)

Module ChangePointsView.

Import JS Api.

(** The component state the helpers close over. *)
Record Data := {
  changePoints : list ChangePoint;
  prices : list PricePoint
}.

Record View := {
  data : Data;
  confidenceThreshold : number;
  analysisWindow : number
}.

(** The values offered by the "Min Confidence" selector, and the state's
    initial value. *)
Definition confidenceOptions : list number := [0.5; 0.6; 0.7; 0.8; 0.9].
Definition initialConfidenceThreshold : number := 0.7.

(** [setConfidenceThreshold(parseFloat(e.target.value))] for the option
    chosen in the selector; [None] when the selector has no such option. *)
Definition selectConfidence (v : View) (i : nat) : option View :=
  match nth_error confidenceOptions i with
  | Some t =>
      Some {| data := v.(data);
              confidenceThreshold := t;
              analysisWindow := v.(analysisWindow) |}
  | None => None
  end.

(** What the window analysis returns: every figure already rendered by
    [toFixed(2)]. *)
Record Analysis := {
  r_avgBefore : string;
  r_avgAfter : string;
  r_priceChange : string;
  r_volatilityBefore : string;
  r_volatilityAfter : string;
  r_volatilityChange : string;
  r_significance : string
}.

(** One bar of the confidence histogram. *)
Record Bin := { range : string; count : nat; color : string }.

(** [getFilteredChangePoints]. *)
Definition getFilteredChangePoints (v : View) : list ChangePoint :=
  filter (fun cp => ge cp.(confidence) v.(confidenceThreshold))
         v.(data).(changePoints).

(** The significance of a change point, as the window analysis reports
    it. *)
Definition significanceOf (changePoint : ChangePoint) : string :=
  if gt changePoint.(confidence) 0.9 then "High"
  else if gt changePoint.(confidence) 0.8 then "Medium"
  else "Low".

Section WithDates.

(** [newDate s] is the time value, in milliseconds, of [new Date(s)];
    NaN for a text that is not a date. *)
Variable newDate : string -> number.

Definition msPerDay : number := 1000 * 60 * 60 * 24.

Definition beforeData (v : View) (changePoint : ChangePoint) : list PricePoint :=
  let cpDate := newDate changePoint.(cp_date) in
  filter (fun p =>
            let pDate := newDate p.(p_date) in
            let daysDiff := (cpDate - pDate) / msPerDay in
            ge daysDiff 0 && le daysDiff v.(analysisWindow))
         v.(data).(prices).

Definition afterData (v : View) (changePoint : ChangePoint) : list PricePoint :=
  let cpDate := newDate changePoint.(cp_date) in
  filter (fun p =>
            let pDate := newDate p.(p_date) in
            let daysDiff := (pDate - cpDate) / msPerDay in
            ge daysDiff 0 && le daysDiff v.(analysisWindow))
         v.(data).(prices).

Definition avgBefore (v : View) (changePoint : ChangePoint) : number :=
  let beforeData := beforeData v changePoint in
  fold_left (fun sum p => sum + p.(price)) beforeData 0
    / ofNat (List.length beforeData).

Definition avgAfter (v : View) (changePoint : ChangePoint) : number :=
  let afterData := afterData v changePoint in
  fold_left (fun sum p => sum + p.(price)) afterData 0
    / ofNat (List.length afterData).

Definition volatilityBefore (v : View) (changePoint : ChangePoint) : number :=
  let beforeData := beforeData v changePoint in
  let avgBefore := avgBefore v changePoint in
  sqrt (fold_left (fun sum p => sum + pow2 (p.(price) - avgBefore)) beforeData 0
          / ofNat (List.length beforeData)).

Definition volatilityAfter (v : View) (changePoint : ChangePoint) : number :=
  let afterData := afterData v changePoint in
  let avgAfter := avgAfter v changePoint in
  sqrt (fold_left (fun sum p => sum + pow2 (p.(price) - avgAfter)) afterData 0
          / ofNat (List.length afterData)).

Definition priceChange (v : View) (changePoint : ChangePoint) : number :=
  let avgBefore := avgBefore v changePoint in
  let avgAfter := avgAfter v changePoint in
  ((avgAfter - avgBefore) / avgBefore) * 100.

Definition volatilityChange (v : View) (changePoint : ChangePoint) : number :=
  let volatilityBefore := volatilityBefore v changePoint in
  let volatilityAfter := volatilityAfter v changePoint in
  ((volatilityAfter - volatilityBefore) / volatilityBefore) * 100.

(** [getChangePointAnalysis]: [None] is the [null] returned when a window
    is too small. *)
Definition getChangePointAnalysis (v : View) (changePoint : ChangePoint)
  : option Analysis :=
  if (List.length (beforeData v changePoint) <? 10)%nat
     || (List.length (afterData v changePoint) <? 10)%nat
  then None
  else Some {|
    r_avgBefore := toFixed (avgBefore v changePoint) 2;
    r_avgAfter := toFixed (avgAfter v changePoint) 2;
    r_priceChange := toFixed (priceChange v changePoint) 2;
    r_volatilityBefore := toFixed (volatilityBefore v changePoint) 2;
    r_volatilityAfter := toFixed (volatilityAfter v changePoint) 2;
    r_volatilityChange := toFixed (volatilityChange v changePoint) 2;
    r_significance := significanceOf changePoint
  |}.

End WithDates.

(** The five bars, all empty. *)
Definition emptyBins : list Bin := [
  {| range := "0.5-0.6"; count := 0; color := "#e74c3c" |};
  {| range := "0.6-0.7"; count := 0; color := "#f39c12" |};
  {| range := "0.7-0.8"; count := 0; color := "#f1c40f" |};
  {| range := "0.8-0.9"; count := 0; color := "#3498db" |};
  {| range := "0.9-1.0"; count := 0; color := "#27ae60" |}
].

(** [bins[i].count++]; an index past the end leaves the bars as they are
    (the code only uses the indices 0 to 4 of a five-bar array). *)
Fixpoint increment (i : nat) (bins : list Bin) : list Bin :=
  match i, bins with
  | _, [] => []
  | O, b :: rest =>
      {| range := b.(range); count := S b.(count); color := b.(color) |} :: rest
  | S i', b :: rest => b :: increment i' rest
  end.

(** The bar a confidence falls in, following the [if]/[else if] chain. *)
Definition binOf (c : number) : option nat :=
  if ge c 0.5 && lt c 0.6 then Some 0%nat
  else if ge c 0.6 && lt c 0.7 then Some 1%nat
  else if ge c 0.7 && lt c 0.8 then Some 2%nat
  else if ge c 0.8 && lt c 0.9 then Some 3%nat
  else if ge c 0.9 then Some 4%nat
  else None.

(** The [forEach] loop over the change points, from given bars. *)
Definition tally (cps : list ChangePoint) (bins : list Bin) : list Bin :=
  fold_left (fun bins cp =>
               match binOf cp.(confidence) with
               | Some i => increment i bins
               | None => bins
               end) cps bins.

Definition getConfidenceDistribution (v : View) : list Bin :=
  tally v.(data).(changePoints) emptyBins.

End ChangePointsView.

(** ** [Math.random] *)

Module Random.

Import JS.

(** The generator: the draws it will deliver, each in [[0, 1)], and how
    many have been taken. *)
Record Rng := { draws : nat -> number; cursor : nat }.

(** A computation that may call [Math.random]. *)
Definition M (A : Type) : Type := Rng -> A * Rng.

Definition ret {A : Type} (a : A) : M A := fun g => (a, g).

Definition bind {A B : Type} (m : M A) (k : A -> M B) : M B :=
  fun g => let '(a, g') := m g in k a g'.

(** [Math.random()]. *)
Definition random : M number :=
  fun g => (g.(draws) g.(cursor),
            {| draws := g.(draws); cursor := S g.(cursor) |}).

Notation "x <- m ;; k" := (bind m (fun x => k))
  (at level 61, m at next level, right associativity).

(** [array.map(f)] for a callback that draws. *)
Fixpoint mapM {A B : Type} (f : A -> M B) (l : list A) : M (list B) :=
  match l with
  | [] => ret []
  | a :: l' => b <- f a ;; bs <- mapM f l' ;; ret (b :: bs)
  end.

(** [array.forEach] updating a local object, for a callback that draws. *)
Fixpoint foldM {A S : Type} (f : S -> A -> M S) (l : list A) (s : S) : M S :=
  match l with
  | [] => ret s
  | a :: l' => s' <- f s a ;; foldM f l' s'
  end.

End Random.

(** ** The correlation view *)

Module CorrelationAnalysis.

Import JS Api Random.

(** The component state; [correlationData] is the response of the
    correlation endpoint, of which the code only tests the presence. *)
Record Data := {
  correlationData : option string;
  events : list GeoEvent;
  prices : list PricePoint;
  changePoints : list ChangePoint
}.

Record Factor := { name : string; key : string }.

Record Cell := {
  x : string;
  y : string;
  value : number;
  cell_correlation : string
}.

Definition factors : list Factor := [
  {| name := "Price Volatility"; key := "volatility" |};
  {| name := "Event Frequency"; key := "eventFrequency" |};
  {| name := "Change Point Frequency"; key := "changePointFreq" |};
  {| name := "Geopolitical Events"; key := "geopoliticalEvents" |};
  {| name := "Economic Events"; key := "economicEvents" |};
  {| name := "Supply Disruptions"; key := "supplyEvents" |}
].

(** [factors[i]]. *)
Definition factor (i : nat) : Factor :=
  nth i factors {| name := EmptyString; key := EmptyString |}.

(** The two nested [for] loops, pushing one cell per pair of factors. *)
Definition calculateCorrelationMatrix (data : Data) : M (list Cell) :=
  match data.(correlationData) with
  | None => ret []
  | Some _ =>
      let indices := seq 0 (List.length factors) in
      foldM (fun matrix i =>
               foldM (fun matrix j =>
                        correlation <-
                          (if (i =? j)%nat then ret 1.0
                           else r <- random ;; ret (r * 2 - 1)) ;;
                        ret (matrix ++
                             [{| x := (factor i).(name);
                                 y := (factor j).(name);
                                 value := correlation;
                                 cell_correlation := toFixed correlation 3 |}]))
                     indices matrix)
            indices []
  end.


(** An entry of the local object [eventTypes], keyed by event type. *)
Record TypeEntry := {
  te_count : nat;
  te_avgImpact : number;
  impacts : list number
}.

(** [eventTypes] as the list of its own properties in insertion order
    (event types are names, so this is the order of [Object.entries]). *)
Definition EventTypes := list (string * TypeEntry).

Fixpoint has (o : EventTypes) (k : string) : bool :=
  match o with
  | [] => false
  | (k', _) :: o' => String.eqb k k' || has o' k
  end.

Fixpoint update (o : EventTypes) (k : string) (f : TypeEntry -> TypeEntry)
  : EventTypes :=
  match o with
  | [] => []
  | (k', e) :: o' =>
      if String.eqb k k' then (k', f e) :: o' else (k', e) :: update o' k f
  end.

Record ImpactRow := {
  eventType : string;
  row_count : nat;
  avgImpact : string;
  row_correlation : string;
  strength : number
}.

(** [array.sort(compare)]: a stable sort; [a] goes after [b] when
    [compare(a, b) > 0]. *)
Fixpoint insertBy {A : Type} (compare : A -> A -> number) (a : A) (l : list A)
  : list A :=
  match l with
  | [] => [a]
  | b :: l' =>
      if gt (compare a b) 0 then b :: insertBy compare a l' else a :: b :: l'
  end.

Definition sortBy {A : Type} (compare : A -> A -> number) (l : list A) : list A :=
  fold_right (insertBy compare) [] l.

Definition getEventImpactCorrelation (data : Data) : M (list ImpactRow) :=
  eventTypes <-
    foldM (fun (eventTypes : EventTypes) (event : GeoEvent) =>
             let eventTypes :=
               if has eventTypes event.(e_type) then eventTypes
               else eventTypes ++
                    [(event.(e_type),
                      {| te_count := 0; te_avgImpact := 0; impacts := [] |})] in
             r <- random ;;
             let impact := r * 20 - 10 in
             ret (update eventTypes event.(e_type)
                    (fun e => {| te_count := S e.(te_count);
                                 te_avgImpact := e.(te_avgImpact);
                                 impacts := e.(impacts) ++ [impact] |})))
          data.(events) [] ;;
  rows <-
    mapM (fun (entry : string * TypeEntry) =>
            let '(type, data) := entry in
            let avgImpact :=
              fold_left (fun sum impact => sum + impact) data.(impacts) 0
                / ofNat (List.length data.(impacts)) in
            r <- random ;;
            let correlation := r * 2 - 1 in
            ret {| eventType := type;
                   row_count := data.(te_count);
                   avgImpact := toFixed avgImpact 2;
                   row_correlation := toFixed correlation 3;
                   strength := abs correlation |})
         eventTypes ;;
  ret (sortBy (fun a b => b.(strength) - a.(strength)) rows).

Record Period := { period_name : string; start : string; finish : string }.

Definition periods : list Period := [
  {| period_name := "2020-2021"; start := "2020-01-01"; finish := "2021-12-31" |};
  {| period_name := "2021-2022"; start := "2021-01-01"; finish := "2022-12-31" |};
  {| period_name := "2022-2023"; start := "2022-01-01"; finish := "2023-12-31" |};
  {| period_name := "2023-2024"; start := "2023-01-01"; finish := "2024-12-31" |}
].

Record PeriodRow := {
  period : string;
  eventCount : nat;
  changePointCount : nat;
  avgPrice : string;
  volatility : string;
  period_correlation : string
}.

Section WithDates.

Variable newDate : string -> number.

(** [d >= new Date(period.start) && d <= new Date(period.end)]. *)
Definition inPeriod (period : Period) (date : string) : bool :=
  ge (newDate date) (newDate period.(start))
  && le (newDate date) (newDate period.(finish)).

Definition getTimePeriodAnalysis (data : Data) : M (list PeriodRow) :=
  mapM (fun period =>
          let periodEvents :=
            filter (fun event => inPeriod period event.(e_date)) data.(events) in
          let periodChangePoints :=
            filter (fun cp => inPeriod period cp.(cp_date)) data.(changePoints) in
          let periodPrices :=
            filter (fun price => inPeriod period price.(p_date)) data.(prices) in
          let avgPrice :=
            if (0 <? List.length periodPrices)%nat
            then fold_left (fun sum p => sum + p.(price)) periodPrices 0
                   / ofNat (List.length periodPrices)
            else 0 in
          let volatility :=
            if (1 <? List.length periodPrices)%nat
            then sqrt (fold_left (fun sum p => sum + pow2 (p.(price) - avgPrice))
                                 periodPrices 0
                         / ofNat (List.length periodPrices))
            else 0 in
          r <- random ;;
          ret {| period := period.(period_name);
                 eventCount := List.length periodEvents;
                 changePointCount := List.length periodChangePoints;
                 avgPrice := toFixed avgPrice 2;
                 volatility := toFixed volatility 2;
                 period_correlation := toFixed (r * 2 - 1) 3 |})
       periods.

(** One rendering of the component: the three tables, computed in this
    order. *)
Definition render (data : Data)
  : M (list Cell * list ImpactRow * list PeriodRow) :=
  correlationMatrix <- calculateCorrelationMatrix data ;;
  eventImpactCorrelations <- getEventImpactCorrelation data ;;
  timePeriodAnalysis <- getTimePeriodAnalysis data ;;
  ret (correlationMatrix, eventImpactCorrelations, timePeriodAnalysis).

End WithDates.

End CorrelationAnalysis.

(** ** The specification's words

    The quantities the specification names, written from its own
    sentences, to be compared with what the views compute. *)

Module Spec.

Import JS Api.

(** The sum of a sequence of numbers, taken from left to right. *)
Definition total (xs : list number) : number :=
  fold_left (fun acc x => acc + x) xs 0.

Definition average (xs : list number) : number :=
  total xs / ofNat (List.length xs).

(** The population standard deviation: the root of the mean squared
    deviation from the average, divided by the number of points. *)
Definition populationStdDev (xs : list number) : number :=
  let mu := average xs in
  sqrt (total (map (fun x => (x - mu) * (x - mu)) xs) / ofNat (List.length xs)).

(** [(after - before) / before * 100]. *)
Definition pctChange (before after : number) : number :=
  (after - before) / before * 100.

(** The distance in days from the instant [from] to the instant [to],
    both in milliseconds. *)
Definition daysBetween (from to : number) : number :=
  (to - from) / 86400000.

(** [l1] is [l2] with some elements left out, the others in place. *)
Inductive Subseq {A : Type} : list A -> list A -> Prop :=
| Subseq_nil : Subseq [] []
| Subseq_skip : forall a l1 l2, Subseq l1 l2 -> Subseq l1 (a :: l2)
| Subseq_keep : forall a l1 l2, Subseq l1 l2 -> Subseq (a :: l1) (a :: l2).

(** Pearson's correlation coefficient of two aligned series. *)
Definition pearson (xs ys : list number) : number :=
  let mx := average xs in
  let my := average ys in
  let cov := total (map (fun xy => (fst xy - mx) * (snd xy - my)) (combine xs ys)) in
  let vx := total (map (fun xy => (fst xy - mx) * (fst xy - mx)) (combine xs ys)) in
  let vy := total (map (fun xy => (snd xy - my) * (snd xy - my)) (combine xs ys)) in
  cov / sqrt (vx * vy).





(** A text that starts neither like a negative number nor like NaN. *)
Definition plainStart (s : string) : Prop :=
  match s with
  | String c _ => c <> "-"%char /\ c <> "N"%char
  | EmptyString => True
  end.

(** The lower and upper bound of each bar of the confidence histogram. *)
Definition binBounds : list (number * number) :=
  [(0.5, 0.6); (0.6, 0.7); (0.7, 0.8); (0.8, 0.9); (0.9, 1.0)].

(** Whether a confidence lies in bar [j] of bounds [lo] and [hi]: closed
    on the left, open on the right, the last bar having no upper end. *)
Definition inBar (j : nat) (lo hi c : number) : bool :=
  ge c lo && (lt c hi || (j =? 4)%nat).



End Spec.

(** ** Sample inputs *)

Module Samples.

Import JS Api.

Local Open Scope string_scope.
Local Open Scope list_scope.

Definition twoDigits (n : nat) : string :=
  if (n <? 10)%nat then "0" ++ digits (Z.of_nat n) else digits (Z.of_nat n).

(** The text of a day of 2020. *)
Definition day2020 (month day : nat) : string :=
  "2020-" ++ twoDigits month ++ "-" ++ twoDigits day.

(** One price per day from [first] to [last] of a month of 2020. *)
Definition daily (month first last : nat) (priceOn : nat -> number)
  : list PricePoint :=
  map (fun d => {| p_date := day2020 month d; price := priceOn d |})
      (seq first (S last - first)).

Definition view (ps : list PricePoint) (cps : list ChangePoint) (t w : number)
  : ChangePointsView.View :=
  {| ChangePointsView.data :=
       {| ChangePointsView.changePoints := cps; ChangePointsView.prices := ps |};
     ChangePointsView.confidenceThreshold := t;
     ChangePointsView.analysisWindow := w |}.

Definition cpOn (d : string) (c : number) : ChangePoint :=
  {| cp_date := d; confidence := c; cp_type := "mean_shift" |}.

(** 48 days of rising prices from 1 January; an anchor on 9 January has
    9 points before it and 40 after it. *)
Definition rising : list PricePoint :=
  daily 1 1 31 (fun d => 60 + ofNat d) ++ daily 2 1 17 (fun d => 90 + ofNat d).

Definition risingView : ChangePointsView.View :=
  view rising [cpOn "2020-01-09" 0.95; cpOn "2020-01-15" 0.85] 0.7 90.

(** A flat fortnight at 100, then a rise. *)
Definition flatThenRising : list PricePoint :=
  daily 1 1 15 (fun _ => 100) ++ daily 1 16 31 (fun d => 85 + ofNat d).

Definition flatView : ChangePointsView.View :=
  view flatThenRising [cpOn "2020-01-15" 0.95] 0.7 30.

(** A month at 100 that ends one cent higher. *)
Definition oneCent : list PricePoint :=
  daily 1 1 30 (fun _ => 100) ++ daily 1 31 31 (fun _ => 100.01).




(** Change points of assorted confidence. *)
Definition assorted : list ChangePoint :=
  [cpOn "2020-01-09" 0.95; cpOn "2020-01-15" 0.55; cpOn "2020-01-20" 0.3;
   cpOn "2020-02-01" 0.6; cpOn "2020-02-09" 1; cpOn "2020-02-11" 0.7].

Definition assortedView : ChangePointsView.View := view rising assorted 0.7 90.

(** A generator whose draws run through the multiples of 1/64. *)
Definition lcg : Random.Rng :=
  {| Random.draws := fun n => ofZ ((Z.of_nat n * 37 + 11) mod 64) / 64;
     Random.cursor := 0 |}.

(** The same draws, started one step later. *)
Definition lcg' : Random.Rng :=
  {| Random.draws := fun n => ofZ ((Z.of_nat n * 37 + 48) mod 64) / 64;
     Random.cursor := 0 |}.

Definition someEvents : list GeoEvent :=
  [{| e_date := "2020-03-01"; e_type := "pandemic" |};
   {| e_date := "2022-02-24"; e_type := "military_conflict" |};
   {| e_date := "2020-04-12"; e_type := "opec_decision" |};
   {| e_date := "2021-04-12"; e_type := "pandemic" |}].

Definition dataset : CorrelationAnalysis.Data :=
  {| CorrelationAnalysis.correlationData := Some "{}";
     CorrelationAnalysis.events := someEvents;
     CorrelationAnalysis.prices := rising;
     CorrelationAnalysis.changePoints := assorted |}.

(** Another state of the world: no events, other prices, no change
    points. *)
Definition otherDataset : CorrelationAnalysis.Data :=
  {| CorrelationAnalysis.correlationData := Some "{}";
     CorrelationAnalysis.events := [];
     CorrelationAnalysis.prices := oneCent;
     CorrelationAnalysis.changePoints := [] |}.

End Samples.

(** ** The rest of the change-points view

    The chart data, the summary cards and the period-comparison panel of
    the component, on the state and helpers of [ChangePointsView]. *)

Module ChangePointsPanels.

Import JS Api ChangePointsView.

Local Open Scope list_scope.

(** A point of the price chart: the price record spread out, and what
    the change point found for it says ([None] is [null]). *)
Record MarkedPrice := {
  m_date : string;
  m_price : number;
  isChangePoint : bool;
  changePointConfidence : option number;
  changePointType : option string
}.

(** What the summary cards show. *)
Record Stats := {
  total : nat;
  avgConfidence : string;
  highConfidence : nat;
  typeDistribution : list (string * nat)
}.

(** [typeDistribution[type] = (typeDistribution[type] || 0) + 1] on the
    object as the list of its properties in insertion order (types are
    names, not members of [Object.prototype]). *)
Fixpoint bump (o : list (string * nat)) (type : string) : list (string * nat) :=
  match o with
  | [] => [(type, 1%nat)]
  | (k, n) :: o' =>
      if String.eqb type k then (k, S n) :: o' else (k, n) :: bump o' type
  end.

Definition getChangePointStats (v : View) : Stats :=
  let filteredPoints := getFilteredChangePoints v in
  let avgConfidence :=
    fold_left (fun sum cp => sum + cp.(confidence)) filteredPoints 0
      / ofNat (List.length filteredPoints) in
  let typeDistribution :=
    fold_left (fun typeDistribution cp => bump typeDistribution cp.(cp_type))
              filteredPoints [] in
  {| total := List.length filteredPoints;
     avgConfidence := toFixed avgConfidence 3;
     highConfidence :=
       List.length (filter (fun cp => gt cp.(confidence) 0.9) filteredPoints);
     typeDistribution := typeDistribution |}.

(** The view after [setConfidenceThreshold(t)], and after
    [setAnalysisWindow(w)]. *)
Definition withThreshold (v : View) (t : number) : View :=
  {| data := v.(data); confidenceThreshold := t;
     analysisWindow := v.(analysisWindow) |}.

Definition withWindow (v : View) (w : number) : View :=
  {| data := v.(data); confidenceThreshold := v.(confidenceThreshold);
     analysisWindow := w |}.

(** What the period-comparison panel comes to: nothing, a [TypeError]
    (reading [date] of [undefined]), the "Insufficient data" notice, or
    the figures of an analysis. *)
Inductive Panel :=
| Hidden
| Throws
| InsufficientData
| Comparison (analysis : Analysis).

(** The interface state beside the data: the view mode and the index of
    the selected card ([None] is [null]). *)
Record Ui := {
  view : View;
  viewMode : string;
  selectedPoint : option nat
}.

(** A click on the card of index [index] in the detailed view:
    [setSelectedPoint(selectedPoint === index ? null : index)]. *)
Definition clickCard (ui : Ui) (index : nat) : Ui :=
  {| view := ui.(view);
     viewMode := ui.(viewMode);
     selectedPoint :=
       match ui.(selectedPoint) with
       | Some i => if (i =? index)%nat then None else Some index
       | None => Some index
       end |}.

(** [setViewMode(e.target.value)] and [setConfidenceThreshold(...)]: each
    sets its own piece of state. *)
Definition chooseViewMode (ui : Ui) (mode : string) : Ui :=
  {| view := ui.(view); viewMode := mode; selectedPoint := ui.(selectedPoint) |}.

Definition chooseConfidence (ui : Ui) (i : nat) : option Ui :=
  match selectConfidence ui.(view) i with
  | Some v' =>
      Some {| view := v';
              viewMode := ui.(viewMode);
              selectedPoint := ui.(selectedPoint) |}
  | None => None
  end.

Section WithDates.

Variable newDate : string -> number.

(** The test of [find]: the change point lies less than a day from the
    price. *)
Definition withinADay (p : PricePoint) (cp : ChangePoint) : bool :=
  lt (abs (newDate cp.(cp_date) - newDate p.(p_date))) (24 * 60 * 60 * 1000).

(** The body of [map]: the price record with what the first change point
    found for it says. *)
Definition markPrice (filteredChangePoints : list ChangePoint)
           (p : PricePoint) : MarkedPrice :=
  let changePoint := find (withinADay p) filteredChangePoints in
  {| m_date := p.(p_date);
     m_price := p.(price);
     isChangePoint :=
       match changePoint with Some _ => true | None => false end;
     changePointConfidence :=
       match changePoint with
       | Some cp => Some cp.(confidence)
       | None => None
       end;
     changePointType :=
       match changePoint with
       | Some cp => Some cp.(cp_type)
       | None => None
       end |}.

Definition getPriceDataWithChangePoints (v : View) : list MarkedPrice :=
  let filteredChangePoints := getFilteredChangePoints v in
  map (markPrice filteredChangePoints) v.(data).(prices).

(** The comparison panel of a view that is not loading:
    [filteredChangePoints[selectedPoint]] handed to
    [getChangePointAnalysis], which reads its [date]. *)
Definition comparisonPanel (ui : Ui) : Panel :=
  if String.eqb ui.(viewMode) "comparison" then
    match ui.(selectedPoint) with
    | None => Hidden
    | Some selectedPoint =>
        match nth_error (getFilteredChangePoints ui.(view)) selectedPoint with
        | None => Throws
        | Some cp =>
            match getChangePointAnalysis newDate ui.(view) cp with
            | None => InsufficientData
            | Some analysis => Comparison analysis
            end
        end
    end
  else Hidden.

End WithDates.

End ChangePointsPanels.

(** ** What the further properties speak of *)

Module Order.

Import JS.



End Order.

Module ChangePointsMeasures.

Import JS Api ChangePointsView.

Local Open Scope list_scope.



End ChangePointsMeasures.

(** The parts of the correlation view's helpers, named: the callbacks the
    code writes in place, and what the rows of the tables are compared
    with. *)
Module CorrelationParts.

Import JS Api Random CorrelationAnalysis.

Local Open Scope list_scope.










(** What a row of the time-period table says of its period. *)
Definition rowOfPeriod (newDate : string -> number) (data : Data) (p : Period)
           (row : PeriodRow) : Prop :=
  let periodPrices :=
    filter (fun price => inPeriod newDate p price.(p_date)) data.(prices) in
  row.(period) = p.(period_name)
  /\ row.(eventCount)
     = List.length (filter (fun event => inPeriod newDate p event.(e_date))
                           data.(events))
  /\ row.(changePointCount)
     = List.length (filter (fun cp => inPeriod newDate p cp.(cp_date))
                           data.(changePoints))
  /\ (periodPrices = [] -> row.(avgPrice) = "0.00"%string)
  /\ ((List.length periodPrices <= 1)%nat -> row.(volatility) = "0.00"%string).


End CorrelationParts.

(** * Facts *)

(** ** Rounding to binary64

    What the rounding of the specification of binary64 arithmetic does to
    the magnitude of a number: enough to tell when a difference, a
    quotient or a product cannot vanish. *)

Module Rounding.

Import Spec.

Local Open Scope Z_scope.






















End Rounding.

(** ** The order and the arithmetic of binary64 numbers *)

Module NumberFacts.

Import JS Spec Rounding.

Ltac cmp_cases :=
  repeat match goal with
  | |- context [Pos.compare_cont Eq ?a ?b] =>
      change (Pos.compare_cont Eq a b) with (Pos.compare a b)
  | H : context [Pos.compare_cont Eq ?a ?b] |- _ =>
      change (Pos.compare_cont Eq a b) with (Pos.compare a b) in H
  end;
  repeat match goal with
  | |- context [Z.compare ?a ?b] => destruct (Z.compare_spec a b)
  | H : context [Z.compare ?a ?b] |- _ => destruct (Z.compare_spec a b)
  | |- context [Pos.compare ?a ?b] => destruct (Pos.compare_spec a b)
  | H : context [Pos.compare ?a ?b] |- _ => destruct (Pos.compare_spec a b)
  end.

Ltac by_cases :=
  simpl; try reflexivity; try discriminate;
  cmp_cases; simpl; intros; try reflexivity; try discriminate; try lia.

Lemma SFleb_SFltb_false x y : SFleb x y = true -> SFltb y x = false.
Proof.
  unfold SFleb, SFltb.
  destruct x as [[]|[]| |[] m1 e1], y as [[]|[]| |[] m2 e2]; by_cases.
Qed.

Lemma SFltb_false_SFleb x y :
  SFltb x y = false -> SFleb x x = true -> SFleb y y = true -> SFleb y x = true.
Proof.
  unfold SFleb, SFltb.
  destruct x as [[]|[]| |[] m1 e1], y as [[]|[]| |[] m2 e2]; by_cases.
Qed.

Lemma SFleb_trans x y z :
  SFleb x y = true -> SFleb y z = true -> SFleb x z = true.
Proof.
  unfold SFleb.
  destruct x as [[]|[]| |[] m1 e1], y as [[]|[]| |[] m2 e2],
           z as [[]|[]| |[] m3 e3]; by_cases.
Qed.

Lemma SFleb_refl_of_l x y : SFleb x y = true -> SFleb x x = true.
Proof.
  unfold SFleb.
  destruct x as [[]|[]| |[] m1 e1], y as [[]|[]| |[] m2 e2];
    simpl; try reflexivity; try discriminate; intros _;
    cmp_cases; simpl; try reflexivity; try lia.
Qed.

Lemma SFleb_refl_of_r x y : SFleb x y = true -> SFleb y y = true.
Proof.
  unfold SFleb.
  destruct x as [[]|[]| |[] m1 e1], y as [[]|[]| |[] m2 e2];
    simpl; try reflexivity; try discriminate; intros _;
    cmp_cases; simpl; try reflexivity; try lia.
Qed.

Lemma SFltb_SFleb x y : SFltb x y = true -> SFleb x y = true.
Proof.
  unfold SFleb, SFltb. destruct (SFcompare x y) as [[]|]; easy.
Qed.

(** [x <= y] excludes [y < x]. *)
Lemma le_not_gt (x y : number) : le x y = true -> gt x y = false.
Proof.
  unfold le, gt. rewrite FloatAxioms.leb_spec, FloatAxioms.ltb_spec.
  apply SFleb_SFltb_false.
Qed.

Lemma lt_not_ge (x y : number) : lt x y = true -> ge x y = false.
Proof.
  unfold lt, ge. intros H.
  destruct (y <=? x) eqn:E; [|reflexivity].
  rewrite FloatAxioms.leb_spec in E. apply SFleb_SFltb_false in E.
  rewrite FloatAxioms.ltb_spec in H. congruence.
Qed.

(** Two numbers that are not NaN are comparable. *)
Lemma not_lt_ge (x y : number) :
  lt x y = false -> le x x = true -> le y y = true -> ge x y = true.
Proof.
  unfold lt, le, ge. rewrite FloatAxioms.ltb_spec, !FloatAxioms.leb_spec.
  apply SFltb_false_SFleb.
Qed.

Lemma le_trans (x y z : number) : le x y = true -> le y z = true -> le x z = true.
Proof. unfold le. rewrite !FloatAxioms.leb_spec. apply SFleb_trans. Qed.

Lemma le_refl_of_l (x y : number) : le x y = true -> le x x = true.
Proof. unfold le. rewrite !FloatAxioms.leb_spec. apply SFleb_refl_of_l. Qed.

Lemma le_refl_of_r (x y : number) : le x y = true -> le y y = true.
Proof. unfold le. rewrite !FloatAxioms.leb_spec. apply SFleb_refl_of_r. Qed.

Lemma lt_le (x y : number) : lt x y = true -> le x y = true.
Proof.
  unfold lt, le. rewrite FloatAxioms.ltb_spec, FloatAxioms.leb_spec.
  apply SFltb_SFleb.
Qed.

(** A finite number minus itself is [+0]. *)
Lemma sub_diag (x : number) :
  isFinite x = true -> Prim2SF (x - x) = S754_zero false.
Proof.
  unfold isFinite. intros H. rewrite sub_spec.
  destruct (Prim2SF x) as [[]| | |s m e]; try discriminate; try reflexivity.
  unfold SF64sub, SFsub.
  rewrite Z.min_id. unfold shl_align. rewrite Z.sub_diag. reflexivity.
Qed.

(** Whatever is divided by a zero, the quotient times 100 is infinite or
    NaN. *)
Lemma div_zero_not_finite (x y : number) :
  (y =? 0) = true -> isFinite ((x / y) * 100) = false.
Proof.
  rewrite FloatAxioms.eqb_spec. unfold isFinite. rewrite mul_spec, div_spec.
  change (Prim2SF 100) with (S754_finite false 7036874417766400 (-46)).
  change (Prim2SF 0) with (S754_zero false).
  destruct (Prim2SF y) as [sy|sy| |sy my ey]; cbn;
    try discriminate; try (destruct sy; discriminate);
    destruct (Prim2SF x) as [sx|sx| |sx mx ex]; intros _; reflexivity.
Qed.

(** The rendering of a number that is not finite. *)
Lemma toFixed_not_finite (x : number) (f : nat) :
  isFinite x = false ->
  toFixed x f = "Infinity"%string \/ toFixed x f = "-Infinity"%string
  \/ toFixed x f = "NaN"%string.
Proof.
  unfold isFinite, toFixed.
  destruct (Prim2SF x) as [s|[]| |s m e]; try discriminate; auto.
Qed.



End NumberFacts.

(** ** The change-points view *)

Module ChangePointsViewFacts.

Import JS Api ChangePointsView Spec NumberFacts.

Local Open Scope list_scope.

(** *** Subsequences and filtering *)

Section Filtering.

Context {A : Type}.
Variable keep : A -> bool.

Lemma Subseq_filter (l : list A) : Subseq (filter keep l) l.
Proof.
  induction l as [|a l IH]; simpl.
  - apply Subseq_nil.
  - destruct (keep a); [apply Subseq_keep|apply Subseq_skip]; exact IH.
Qed.

Lemma Subseq_filter_greatest (l' l : list A) :
  Subseq l' l -> Forall (fun a => keep a = true) l' -> Subseq l' (filter keep l).
Proof.
  induction 1 as [|a l1 l2 _ IH|a l1 l2 _ IH]; intros Hall; simpl.
  - constructor.
  - destruct (keep a); [apply Subseq_skip|]; now apply IH.
  - inversion Hall as [|? ? Ha Hrest]; subst.
    rewrite Ha. apply Subseq_keep. now apply IH.
Qed.

End Filtering.

#[local] Hint Resolve Subseq_filter : core.

(** *** Threshold filtering *)

(** C8. For every list of change points and every threshold [t] in
    [[0, 1]], [getFilteredChangePoints] returns exactly the change points
    whose confidence is at least [t], in their original order: the result
    is a subsequence of the list, holds a change point exactly when its
    confidence is at least [t], and every subsequence of qualifying change
    points is a subsequence of it.  The selector offers the thresholds
    0.5, 0.6, 0.7, 0.8 and 0.9, all in [[0, 1]]. *)
Theorem filtered_change_points_exact (v : View) :
  le 0 v.(confidenceThreshold) = true ->
  le v.(confidenceThreshold) 1 = true ->
  (forall cp,
      In cp (getFilteredChangePoints v) <->
      In cp v.(data).(changePoints)
      /\ ge cp.(confidence) v.(confidenceThreshold) = true)
  /\ Subseq (getFilteredChangePoints v) v.(data).(changePoints)
  /\ (forall l,
         Subseq l v.(data).(changePoints) ->
         Forall (fun cp => ge cp.(confidence) v.(confidenceThreshold) = true) l ->
         Subseq l (getFilteredChangePoints v))
  /\ confidenceOptions = [0.5; 0.6; 0.7; 0.8; 0.9]
  /\ (forall i v',
         selectConfidence v i = Some v' ->
         In v'.(confidenceThreshold) [0.5; 0.6; 0.7; 0.8; 0.9]
         /\ le 0 v'.(confidenceThreshold) = true
         /\ le v'.(confidenceThreshold) 1 = true
         /\ v'.(data) = v.(data)).
Proof.
  intros _ _. unfold getFilteredChangePoints.
  split; [|split; [|split; [|split]]].
  - intros cp. apply filter_In.
  - apply Subseq_filter.
  - intros l Hsub Hall.
    now apply (Subseq_filter_greatest
                 (fun cp => ge cp.(confidence) v.(confidenceThreshold))).
  - reflexivity.
  - intros i v'. unfold selectConfidence, confidenceOptions.
    do 5 (destruct i as [|i]; [intros [= <-]; simpl; intuition auto|]).
    simpl. destruct i; discriminate.
Qed.

Lemma filtered_change_points_exact_witness :
  le 0 Samples.assortedView.(confidenceThreshold) = true
  /\ le Samples.assortedView.(confidenceThreshold) 1 = true
  /\ getFilteredChangePoints Samples.assortedView
     = [Samples.cpOn "2020-01-09" 0.95; Samples.cpOn "2020-02-09" 1;
        Samples.cpOn "2020-02-11" 0.7]
  /\ Subseq (getFilteredChangePoints Samples.assortedView) Samples.assorted.
Proof.
  split; [reflexivity|]. split; [reflexivity|]. split; [reflexivity|].
  exact (proj1 (proj2 (filtered_change_points_exact Samples.assortedView
                         eq_refl eq_refl))).
Defined.

(** *** The window analysis *)

Section Windows.

Variable newDate : string -> number.

Lemma msPerDay_value : msPerDay = 86400000.
Proof. reflexivity. Qed.

Lemma analysis_none_iff (v : View) (cp : ChangePoint) :
  getChangePointAnalysis newDate v cp = None <->
  (List.length (beforeData newDate v cp) < 10
   \/ List.length (afterData newDate v cp) < 10)%nat.
Proof.
  unfold getChangePointAnalysis.
  destruct (Nat.ltb_spec (List.length (beforeData newDate v cp)) 10);
    destruct (Nat.ltb_spec (List.length (afterData newDate v cp)) 10);
    simpl; split; intros; try discriminate; try reflexivity; auto; lia.
Qed.

Lemma analysis_some (v : View) (cp : ChangePoint) (r : Analysis) :
  getChangePointAnalysis newDate v cp = Some r ->
  r = {| r_avgBefore := toFixed (avgBefore newDate v cp) 2;
         r_avgAfter := toFixed (avgAfter newDate v cp) 2;
         r_priceChange := toFixed (priceChange newDate v cp) 2;
         r_volatilityBefore := toFixed (volatilityBefore newDate v cp) 2;
         r_volatilityAfter := toFixed (volatilityAfter newDate v cp) 2;
         r_volatilityChange := toFixed (volatilityChange newDate v cp) 2;
         r_significance := significanceOf cp |}.
Proof.
  unfold getChangePointAnalysis.
  destruct (_ || _); [discriminate|]. now intros [= <-].
Qed.

End Windows.

(** C3. The window analysis returns no analysis exactly when the
    before-window or the after-window holds fewer than 10 price points,
    and an analysis otherwise; an anchor with 9 points before and 40
    after gets none, as on the rising series anchored on 9 January. *)
Theorem window_analysis_fails_iff_small_window
  (newDate : string -> number) (v : View) (cp : ChangePoint) :
  (getChangePointAnalysis newDate v cp = None <->
   (List.length (beforeData newDate v cp) < 10
    \/ List.length (afterData newDate v cp) < 10)%nat)
  /\ ((10 <= List.length (beforeData newDate v cp)
       /\ 10 <= List.length (afterData newDate v cp))%nat <->
      exists r, getChangePointAnalysis newDate v cp = Some r)
  /\ (List.length (beforeData newDate v cp) = 9%nat ->
      List.length (afterData newDate v cp) = 40%nat ->
      getChangePointAnalysis newDate v cp = None)
  /\ (List.length (beforeData isoDate Samples.risingView
                     (Samples.cpOn "2020-01-09" 0.95)) = 9%nat
      /\ List.length (afterData isoDate Samples.risingView
                        (Samples.cpOn "2020-01-09" 0.95)) = 40%nat
      /\ getChangePointAnalysis isoDate Samples.risingView
           (Samples.cpOn "2020-01-09" 0.95) = None).
Proof.
  pose proof (analysis_none_iff newDate v cp) as Hnone.
  split; [exact Hnone|]. split; [|split].
  - destruct (getChangePointAnalysis newDate v cp) as [r|] eqn:E.
    + split; [eauto|]. intros _.
      assert (~ (List.length (beforeData newDate v cp) < 10
                 \/ List.length (afterData newDate v cp) < 10)%nat) as Hn
          by (intros Hlt; apply Hnone in Hlt; discriminate).
      lia.
    + split; [|intros [r Hr]; discriminate].
      intros Hge. assert (None = None :> option Analysis) as Hx by reflexivity.
      apply Hnone in Hx. lia.
  - intros Hb _. apply Hnone. lia.
  - vm_compute. auto.
Qed.

(** *** What the windows hold *)

Section WindowMembership.

Variable newDate : string -> number.

Lemma before_test (v : View) (cp : ChangePoint) (p : PricePoint) :
  In p (beforeData newDate v cp) <->
  In p v.(data).(prices)
  /\ le 0 (daysBetween (newDate p.(p_date)) (newDate cp.(cp_date))) = true
  /\ le (daysBetween (newDate p.(p_date)) (newDate cp.(cp_date)))
        v.(analysisWindow) = true.
Proof.
  unfold beforeData. rewrite filter_In. unfold daysBetween, ge, le.
  rewrite msPerDay_value, andb_true_iff. tauto.
Qed.

Lemma after_test (v : View) (cp : ChangePoint) (p : PricePoint) :
  In p (afterData newDate v cp) <->
  In p v.(data).(prices)
  /\ le 0 (daysBetween (newDate cp.(cp_date)) (newDate p.(p_date))) = true
  /\ le (daysBetween (newDate cp.(cp_date)) (newDate p.(p_date)))
        v.(analysisWindow) = true.
Proof.
  unfold afterData. rewrite filter_In. unfold daysBetween, ge, le.
  rewrite msPerDay_value, andb_true_iff. tauto.
Qed.

(** No time passes between an instant and itself, in days as well. *)
Lemma daysBetween_diag (t : number) :
  isFinite t = true -> Prim2SF (daysBetween t t) = S754_zero false.
Proof.
  intros Hfin. unfold daysBetween. rewrite div_spec, (sub_diag t Hfin).
  reflexivity.
Qed.

Lemma zero_days_in_window (d w : number) :
  Prim2SF d = S754_zero false -> le 0 w = true ->
  le 0 d = true /\ le d w = true.
Proof.
  unfold le. rewrite !FloatAxioms.leb_spec. intros -> Hw.
  split; [reflexivity|exact Hw].
Qed.

End WindowMembership.

(** C5. For every anchor, window size and price series, the before-window
    holds exactly the price points dated at most [window] days before the
    anchor ([0 <= anchor - date <= window], in days), the after-window
    exactly those dated at most [window] days after it, both in the order
    of the series; a price point dated on the anchor itself belongs to
    both windows (for a valid anchor date and a window that is not
    negative).  With a window of 3 days around 9 January, the windows of
    the daily series run from 6 to 9 January and from 9 to 12 January. *)
Theorem windows_hold_exactly_the_dated_points
  (newDate : string -> number) (v : View) (cp : ChangePoint) :
  (forall p,
      In p (beforeData newDate v cp) <->
      In p v.(data).(prices)
      /\ le 0 (daysBetween (newDate p.(p_date)) (newDate cp.(cp_date))) = true
      /\ le (daysBetween (newDate p.(p_date)) (newDate cp.(cp_date)))
            v.(analysisWindow) = true)
  /\ (forall p,
         In p (afterData newDate v cp) <->
         In p v.(data).(prices)
         /\ le 0 (daysBetween (newDate cp.(cp_date)) (newDate p.(p_date))) = true
         /\ le (daysBetween (newDate cp.(cp_date)) (newDate p.(p_date)))
               v.(analysisWindow) = true)
  /\ Subseq (beforeData newDate v cp) v.(data).(prices)
  /\ Subseq (afterData newDate v cp) v.(data).(prices)
  /\ (forall l,
         Subseq l v.(data).(prices) ->
         Forall (fun p => In p (beforeData newDate v cp)) l ->
         Subseq l (beforeData newDate v cp))
  /\ (forall l,
         Subseq l v.(data).(prices) ->
         Forall (fun p => In p (afterData newDate v cp)) l ->
         Subseq l (afterData newDate v cp))
  /\ (forall p,
         In p v.(data).(prices) ->
         newDate p.(p_date) = newDate cp.(cp_date) ->
         isFinite (newDate cp.(cp_date)) = true ->
         le 0 v.(analysisWindow) = true ->
         In p (beforeData newDate v cp) /\ In p (afterData newDate v cp))
  /\ (map p_date (beforeData isoDate (Samples.view Samples.rising [] 0.7 3)
                              (Samples.cpOn "2020-01-09" 0.95))
      = ["2020-01-06"; "2020-01-07"; "2020-01-08"; "2020-01-09"]%string
      /\ map p_date (afterData isoDate (Samples.view Samples.rising [] 0.7 3)
                               (Samples.cpOn "2020-01-09" 0.95))
         = ["2020-01-09"; "2020-01-10"; "2020-01-11"; "2020-01-12"]%string).
Proof.
  split; [exact (before_test newDate v cp)|].
  split; [exact (after_test newDate v cp)|].
  split; [apply Subseq_filter|]. split; [apply Subseq_filter|].
  split; [|split; [|split]].
  - intros l Hsub Hall. unfold beforeData.
    apply Subseq_filter_greatest; [exact Hsub|].
    eapply Forall_impl; [|exact Hall].
    intros p Hp. unfold beforeData in Hp. apply filter_In in Hp. apply Hp.
  - intros l Hsub Hall. unfold afterData.
    apply Subseq_filter_greatest; [exact Hsub|].
    eapply Forall_impl; [|exact Hall].
    intros p Hp. unfold afterData in Hp. apply filter_In in Hp. apply Hp.
  - intros p Hin Hdate Hfin Hw.
    rewrite before_test, after_test, Hdate.
    pose proof (zero_days_in_window _ _
                  (daysBetween_diag (newDate cp.(cp_date)) Hfin) Hw).
    tauto.
  - split; vm_compute; reflexivity.
Qed.

(** *** Significance *)

Lemma significanceOf_cases (cp : ChangePoint) :
  (gt cp.(confidence) 0.9 = true -> significanceOf cp = "High"%string)
  /\ (gt cp.(confidence) 0.8 = true -> le cp.(confidence) 0.9 = true ->
      significanceOf cp = "Medium"%string)
  /\ (le cp.(confidence) 0.8 = true -> significanceOf cp = "Low"%string).
Proof.
  unfold significanceOf. split; [|split].
  - now intros ->.
  - intros H8 H9. apply le_not_gt in H9. now rewrite H9, H8.
  - intros H8. pose proof (le_not_gt _ _ H8) as H8'.
    assert (gt cp.(confidence) 0.9 = false) as H9'.
    { apply le_not_gt. apply (le_trans _ 0.8); [exact H8|reflexivity]. }
    now rewrite H9', H8'.
Qed.

(** C6. Whenever the window analysis of a change point succeeds, its
    significance follows from the confidence of the change point: above
    0.9 it is High, above 0.8 and at most 0.9 it is Medium, at most 0.8 it
    is Low. *)
Theorem significance_from_confidence
  (newDate : string -> number) (v : View) (cp : ChangePoint) (r : Analysis) :
  getChangePointAnalysis newDate v cp = Some r ->
  (gt cp.(confidence) 0.9 = true -> r.(r_significance) = "High"%string)
  /\ (gt cp.(confidence) 0.8 = true -> le cp.(confidence) 0.9 = true ->
      r.(r_significance) = "Medium"%string)
  /\ (le cp.(confidence) 0.8 = true -> r.(r_significance) = "Low"%string).
Proof.
  intros Hr. apply analysis_some in Hr. subst r. simpl.
  apply significanceOf_cases.
Qed.

Lemma significance_from_confidence_witness :
  exists r,
    getChangePointAnalysis isoDate Samples.risingView
      (Samples.cpOn "2020-01-15" 0.85) = Some r
    /\ r.(r_significance) = "Medium"%string.
Proof.
  eexists. split; [vm_compute; reflexivity|].
  refine (proj1 (proj2 (significance_from_confidence isoDate Samples.risingView
                          (Samples.cpOn "2020-01-15" 0.85) _ _)) _ _);
    vm_compute; reflexivity.
Defined.

(** *** Averages, volatilities and their changes *)

Section Formulas.

Variable newDate : string -> number.

Lemma fold_prices (w : list PricePoint) (f : number -> number) (acc : number) :
  fold_left (fun sum p => sum + f p.(price)) w acc
  = fold_left (fun a x => a + x) (map f (map price w)) acc.
Proof.
  revert acc. induction w as [|p w IH]; intros acc; simpl.
  - reflexivity.
  - apply IH.
Qed.

Lemma window_average (w : list PricePoint) :
  fold_left (fun sum p => sum + p.(price)) w 0 / ofNat (List.length w)
  = average (map price w).
Proof.
  unfold average, total.
  rewrite (fold_prices w (fun x => x)), map_id, length_map. reflexivity.
Qed.

Lemma window_volatility (w : list PricePoint) :
  sqrt (fold_left (fun sum p => sum + pow2 (p.(price) - average (map price w))) w 0
          / ofNat (List.length w))
  = populationStdDev (map price w).
Proof.
  unfold populationStdDev, total.
  rewrite (fold_prices w (fun x => pow2 (x - average (map price w)))).
  rewrite length_map. reflexivity.
Qed.

Lemma avgBefore_is_average (v : View) (cp : ChangePoint) :
  avgBefore newDate v cp = average (map price (beforeData newDate v cp)).
Proof. unfold avgBefore. apply window_average. Qed.

Lemma avgAfter_is_average (v : View) (cp : ChangePoint) :
  avgAfter newDate v cp = average (map price (afterData newDate v cp)).
Proof. unfold avgAfter. apply window_average. Qed.

Lemma volatilityBefore_is_stddev (v : View) (cp : ChangePoint) :
  volatilityBefore newDate v cp
  = populationStdDev (map price (beforeData newDate v cp)).
Proof.
  unfold volatilityBefore. cbv zeta. rewrite avgBefore_is_average.
  apply window_volatility.
Qed.

Lemma volatilityAfter_is_stddev (v : View) (cp : ChangePoint) :
  volatilityAfter newDate v cp
  = populationStdDev (map price (afterData newDate v cp)).
Proof.
  unfold volatilityAfter. cbv zeta. rewrite avgAfter_is_average.
  apply window_volatility.
Qed.

End Formulas.

(** C4. For every anchor, window size and price series whose
    before-window average is positive, a successful window analysis
    computes the price change as [(avg_after - avg_before) / avg_before *
    100] from the averages of the two windows, and the volatility change
    by the same formula from the population standard deviations of the
    prices of the two windows; the analysis reports both rendered with two
    decimals. *)
Theorem changes_follow_the_formulas
  (newDate : string -> number) (v : View) (cp : ChangePoint) (r : Analysis) :
  getChangePointAnalysis newDate v cp = Some r ->
  gt (average (map price (beforeData newDate v cp))) 0 = true ->
  priceChange newDate v cp
  = pctChange (average (map price (beforeData newDate v cp)))
              (average (map price (afterData newDate v cp)))
  /\ volatilityChange newDate v cp
     = pctChange (populationStdDev (map price (beforeData newDate v cp)))
                 (populationStdDev (map price (afterData newDate v cp)))
  /\ r.(r_priceChange)
     = toFixed (pctChange (average (map price (beforeData newDate v cp)))
                          (average (map price (afterData newDate v cp)))) 2
  /\ r.(r_volatilityChange)
     = toFixed (pctChange
                  (populationStdDev (map price (beforeData newDate v cp)))
                  (populationStdDev (map price (afterData newDate v cp)))) 2.
Proof.
  intros Hr _. apply analysis_some in Hr. subst r. simpl.
  assert (priceChange newDate v cp
          = pctChange (average (map price (beforeData newDate v cp)))
                      (average (map price (afterData newDate v cp)))) as Hp.
  { unfold priceChange, pctChange. cbv zeta.
    now rewrite avgBefore_is_average, avgAfter_is_average. }
  assert (volatilityChange newDate v cp
          = pctChange (populationStdDev (map price (beforeData newDate v cp)))
                      (populationStdDev (map price (afterData newDate v cp))))
    as Hv.
  { unfold volatilityChange, pctChange. cbv zeta.
    now rewrite volatilityBefore_is_stddev, volatilityAfter_is_stddev. }
  rewrite <- Hp, <- Hv. auto.
Qed.

Lemma changes_follow_the_formulas_witness :
  exists r,
    getChangePointAnalysis isoDate Samples.risingView
      (Samples.cpOn "2020-01-15" 0.85) = Some r
    /\ r.(r_priceChange) = "33.82"%string
    /\ r.(r_volatilityChange) = "117.12"%string
    /\ r.(r_priceChange)
       = toFixed (pctChange
                    (average (map price (beforeData isoDate Samples.risingView
                                           (Samples.cpOn "2020-01-15" 0.85))))
                    (average (map price (afterData isoDate Samples.risingView
                                           (Samples.cpOn "2020-01-15" 0.85)))))
                 2.
Proof.
  eexists. split; [vm_compute; reflexivity|].
  split; [reflexivity|]. split; [reflexivity|].
  refine (proj1 (proj2 (proj2 (changes_follow_the_formulas isoDate
                                 Samples.risingView
                                 (Samples.cpOn "2020-01-15" 0.85) _ _ _))));
    vm_compute; reflexivity.
Defined.

(** *** The unguarded denominator *)

(** C9. The window analysis checks the sizes of the windows and nothing
    else: whenever it succeeds on a before-window whose standard deviation
    is zero, the volatility change is divided by zero, is not a finite
    number and is reported as Infinity, -Infinity or NaN; and this
    happens, for instance for the series that stays at 100 for a fortnight
    and then rises, where both windows hold at least 10 points, every
    price of the before-window is 100 and the reported volatility change
    is Infinity. *)
Theorem volatility_change_divides_by_zero :
  (forall (newDate : string -> number) (v : View) (cp : ChangePoint)
          (r : Analysis),
      getChangePointAnalysis newDate v cp = Some r ->
      (volatilityBefore newDate v cp =? 0) = true ->
      isFinite (volatilityChange newDate v cp) = false
      /\ (r.(r_volatilityChange) = "Infinity"%string
          \/ r.(r_volatilityChange) = "-Infinity"%string
          \/ r.(r_volatilityChange) = "NaN"%string))
  /\ (exists (v : View) (cp : ChangePoint) (r : Analysis),
         (10 <= List.length (beforeData isoDate v cp))%nat
         /\ (10 <= List.length (afterData isoDate v cp))%nat
         /\ Forall (fun p => p.(price) = 100) (beforeData isoDate v cp)
         /\ volatilityBefore isoDate v cp = 0
         /\ getChangePointAnalysis isoDate v cp = Some r
         /\ isFinite (volatilityChange isoDate v cp) = false
         /\ r.(r_volatilityChange) = "Infinity"%string).
Proof.
  split.
  - intros newDate v cp r Hr Hzero.
    assert (isFinite (volatilityChange newDate v cp) = false) as Hinf.
    { unfold volatilityChange. cbv zeta. now apply div_zero_not_finite. }
    split; [exact Hinf|].
    apply analysis_some in Hr. subst r. simpl.
    now apply toFixed_not_finite.
  - exists Samples.flatView, (Samples.cpOn "2020-01-15" 0.95).
    eexists.
    split; [vm_compute; lia|]. split; [vm_compute; lia|].
    split; [vm_compute; repeat constructor|].
    split; [vm_compute; reflexivity|].
    split; [vm_compute; reflexivity|].
    split; vm_compute; reflexivity.
Qed.

(** *** The confidence histogram *)

Lemma binOf_some_iff (c : number) :
  (exists i, binOf c = Some i) <-> ge c 0.5 = true.
Proof.
  unfold binOf. split.
  - assert (forall k, le 0.5 k = true -> ge c k = true -> ge c 0.5 = true)
      as Hup by (intros k Hk Hc; exact (le_trans 0.5 k c Hk Hc)).
    destruct (ge c 0.5) eqn:E5; [reflexivity|]. simpl.
    destruct (ge c 0.6) eqn:E6;
      [pose proof (Hup 0.6 eq_refl E6); congruence|]. simpl.
    destruct (ge c 0.7) eqn:E7;
      [pose proof (Hup 0.7 eq_refl E7); congruence|]. simpl.
    destruct (ge c 0.8) eqn:E8;
      [pose proof (Hup 0.8 eq_refl E8); congruence|]. simpl.
    destruct (ge c 0.9) eqn:E9;
      [pose proof (Hup 0.9 eq_refl E9); congruence|].
    intros [i Hi]. discriminate.
  - intros H5. assert (le c c = true) as Hc by exact (le_refl_of_r _ _ H5).
    assert (forall k, le k k = true -> lt c k = false -> ge c k = true)
      as Hstep by (intros k Hk Hlt; now apply not_lt_ge).
    rewrite H5. simpl.
    destruct (lt c 0.6) eqn:L6; [eauto|].
    rewrite (Hstep 0.6 eq_refl L6). simpl.
    destruct (lt c 0.7) eqn:L7; [eauto|].
    rewrite (Hstep 0.7 eq_refl L7). simpl.
    destruct (lt c 0.8) eqn:L8; [eauto|].
    rewrite (Hstep 0.8 eq_refl L8). simpl.
    destruct (lt c 0.9) eqn:L9; [eauto|].
    rewrite (Hstep 0.9 eq_refl L9). eauto.
Qed.

Lemma binOf_range (c : number) (i : nat) :
  binOf c = Some i ->
  exists lo hi,
    nth_error binBounds i = Some (lo, hi)
    /\ le lo c = true
    /\ (lt c hi = true \/ i = 4%nat).
Proof.
  unfold binOf.
  destruct (ge c 0.5 && lt c 0.6) eqn:B0.
  { intros Hi. injection Hi as <-. apply andb_true_iff in B0.
    exists 0.5, 0.6. simpl. tauto. }
  destruct (ge c 0.6 && lt c 0.7) eqn:B1.
  { intros Hi. injection Hi as <-. apply andb_true_iff in B1.
    exists 0.6, 0.7. simpl. tauto. }
  destruct (ge c 0.7 && lt c 0.8) eqn:B2.
  { intros Hi. injection Hi as <-. apply andb_true_iff in B2.
    exists 0.7, 0.8. simpl. tauto. }
  destruct (ge c 0.8 && lt c 0.9) eqn:B3.
  { intros Hi. injection Hi as <-. apply andb_true_iff in B3.
    exists 0.8, 0.9. simpl. tauto. }
  destruct (ge c 0.9) eqn:B4; [|discriminate].
  intros Hi. injection Hi as <-. exists 0.9, 1.0. simpl. tauto.
Qed.

(** The bars do not overlap: a confidence within the bounds of a bar is
    counted in that bar. *)
Lemma binOf_unique (c : number) (j : nat) (lo hi : number) :
  nth_error binBounds j = Some (lo, hi) ->
  le lo c = true -> (lt c hi = true \/ j = 4%nat) -> binOf c = Some j.
Proof.
  intros Hj Hlo Hhi.
  assert (forall k, le k lo = true -> lt c k = false) as Hearlier.
  { intros k Hk. apply (le_not_gt k c). exact (le_trans _ _ _ Hk Hlo). }
  unfold binBounds in Hj. unfold binOf.
  destruct j as [|[|[|[|[|j]]]]]; simpl in Hj;
    try (destruct j; discriminate);
    injection Hj as <- <-;
    destruct Hhi as [Hhi|Hhi]; try discriminate;
    repeat match goal with
    | |- context [lt c ?k] =>
        first [ rewrite Hhi | rewrite (Hearlier k eq_refl) ]
    end;
    rewrite ?andb_false_r; unfold le in Hlo; unfold ge; rewrite Hlo;
    reflexivity.
Qed.

Lemma binOf_below (c : number) : lt c 0.5 = true -> binOf c = None.
Proof.
  intros Hlt. destruct (binOf c) as [i|] eqn:E; [|reflexivity].
  assert (ge c 0.5 = true) as Hge by (apply binOf_some_iff; eauto).
  apply lt_not_ge in Hlt. congruence.
Qed.

Lemma binOf_lt_5 (c : number) (i : nat) : binOf c = Some i -> (i < 5)%nat.
Proof.
  intros Hi. destruct (binOf_range c i Hi) as (lo & hi & Hnth & _).
  change 5%nat with (List.length binBounds).
  apply nth_error_Some. congruence.
Qed.

Lemma binOf_inBar (c : number) (j : nat) (lo hi : number) :
  nth_error binBounds j = Some (lo, hi) ->
  inBar j lo hi c = match binOf c with
                    | Some i => (i =? j)%nat
                    | None => false
                    end.
Proof.
  intros Hj. unfold inBar.
  destruct (ge c lo && (lt c hi || (j =? 4)%nat)) eqn:E.
  - apply andb_true_iff in E. destruct E as [Hlo Hhi].
    apply orb_true_iff in Hhi. rewrite Nat.eqb_eq in Hhi.
    rewrite (binOf_unique c j lo hi Hj Hlo Hhi). now rewrite Nat.eqb_refl.
  - destruct (binOf c) as [i|] eqn:Hi; [|reflexivity].
    destruct (Nat.eqb_spec i j) as [->|]; [|reflexivity].
    destruct (binOf_range c j Hi) as (lo' & hi' & Hnth & Hlo & Hhi).
    rewrite Hj in Hnth. injection Hnth as <- <-.
    unfold le in Hlo. unfold ge in E. rewrite Hlo in E. simpl in E.
    destruct Hhi as [Hhi| ->]; [rewrite Hhi in E; discriminate|].
    rewrite orb_true_r in E. discriminate.
Qed.

Lemma length_increment (i : nat) (bins : list Bin) :
  List.length (increment i bins) = List.length bins.
Proof.
  revert i. induction bins as [|b bins IH]; intros [|i]; simpl; auto.
Qed.

Lemma count_increment (i j : nat) (bins : list Bin) :
  (i < List.length bins)%nat ->
  nth j (map count (increment i bins)) 0%nat
  = (nth j (map count bins) 0 + if (i =? j)%nat then 1 else 0)%nat.
Proof.
  revert i j. induction bins as [|b bins IH]; intros i j Hi; simpl in Hi.
  - lia.
  - destruct i as [|i], j as [|j]; simpl; try lia.
    apply IH. lia.
Qed.

Lemma sum_increment (i : nat) (bins : list Bin) :
  (i < List.length bins)%nat ->
  list_sum (map count (increment i bins)) = S (list_sum (map count bins)).
Proof.
  revert i. induction bins as [|b bins IH]; intros i Hi; simpl in Hi.
  - lia.
  - destruct i as [|i]; simpl; [reflexivity|].
    rewrite IH by lia. lia.
Qed.

Lemma range_increment (i : nat) (bins : list Bin) :
  map range (increment i bins) = map range bins.
Proof.
  revert i. induction bins as [|b bins IH]; intros [|i]; simpl; auto.
  now rewrite IH.
Qed.

Lemma tally_invariant (cps : list ChangePoint) : forall bins,
  List.length bins = 5%nat ->
  List.length (tally cps bins) = 5%nat
  /\ map range (tally cps bins) = map range bins
  /\ list_sum (map count (tally cps bins))
     = Nat.add (list_sum (map count bins))
         (List.length (filter (fun cp => ge cp.(confidence) 0.5) cps))
  /\ forall j,
       nth j (map count (tally cps bins)) 0%nat
       = Nat.add (nth j (map count bins) 0%nat)
           (List.length (filter (fun cp => match binOf cp.(confidence) with
                                           | Some i => (i =? j)%nat
                                           | None => false
                                           end) cps)).
Proof.
  induction cps as [|cp cps IH]; intros bins Hlen; simpl.
  - repeat split; auto; intros; lia.
  - destruct (binOf cp.(confidence)) as [i|] eqn:Hbin.
    + assert (ge cp.(confidence) 0.5 = true) as Hge
          by (apply binOf_some_iff; eauto).
      pose proof (binOf_lt_5 _ _ Hbin) as Hi.
      destruct (IH (increment i bins)) as (H1 & H2 & H3 & H4).
      { now rewrite length_increment. }
      rewrite Hge. simpl.
      split; [exact H1|]. split; [now rewrite H2, range_increment|].
      split.
      * rewrite H3, sum_increment by lia. lia.
      * intros j. rewrite H4, count_increment by lia.
        destruct (i =? j)%nat; simpl; lia.
    + assert (ge cp.(confidence) 0.5 = false) as Hge.
      { destruct (ge cp.(confidence) 0.5) eqn:E; [|reflexivity].
        apply binOf_some_iff in E. destruct E as [i Hi]. congruence. }
      rewrite Hge. apply IH. exact Hlen.
Qed.

(** C10. The confidence histogram puts every change point whose
    confidence lies in [[0.5, 1]] into exactly one of its five bars, each
    closed on the left (0.5-0.6, 0.6-0.7, 0.7-0.8, 0.8-0.9 and 0.9-1.0),
    and leaves out every change point whose confidence is below 0.5: each
    bar counts the change points within its bounds, and the counts add up
    to the number of change points with confidence at least 0.5, which
    can be less than the number of change points. *)
Theorem histogram_counts_confidences_from_one_half (v : View) :
  (forall c,
      le 0.5 c = true -> le c 1 = true ->
      exists i lo hi,
        binOf c = Some i
        /\ nth_error binBounds i = Some (lo, hi)
        /\ le lo c = true /\ le c hi = true
        /\ (lt c hi = true \/ i = 4%nat)
        /\ forall j lo' hi',
             nth_error binBounds j = Some (lo', hi') ->
             le lo' c = true -> (lt c hi' = true \/ j = 4%nat) -> j = i)
  /\ (forall c, lt c 0.5 = true -> binOf c = None)
  /\ map range (getConfidenceDistribution v)
     = ["0.5-0.6"; "0.6-0.7"; "0.7-0.8"; "0.8-0.9"; "0.9-1.0"]%string
  /\ (forall j lo hi,
         nth_error binBounds j = Some (lo, hi) ->
         nth j (map count (getConfidenceDistribution v)) 0%nat
         = List.length (filter (fun cp => inBar j lo hi cp.(confidence))
                               v.(data).(changePoints)))
  /\ list_sum (map count (getConfidenceDistribution v))
     = List.length (filter (fun cp => ge cp.(confidence) 0.5)
                           v.(data).(changePoints))
  /\ (list_sum (map count (getConfidenceDistribution v))
      <= List.length v.(data).(changePoints))%nat
  /\ (list_sum (map count (getConfidenceDistribution Samples.assortedView))
      < List.length Samples.assortedView.(data).(changePoints))%nat.
Proof.
  destruct (tally_invariant v.(data).(changePoints) emptyBins eq_refl)
    as (_ & Hrange & Hsum & Hcount).
  change (tally v.(data).(changePoints) emptyBins)
    with (getConfidenceDistribution v) in Hrange, Hsum, Hcount.
  split; [|split; [exact binOf_below|split; [exact Hrange|split; [|split]]]].
  - intros c H5 H1.
    assert (ge c 0.5 = true) as Hge by exact H5.
    apply binOf_some_iff in Hge. destruct Hge as [i Hi].
    destruct (binOf_range c i Hi) as (lo & hi & Hnth & Hlo & Hhi).
    exists i, lo, hi. split; [exact Hi|]. split; [exact Hnth|].
    split; [exact Hlo|]. split; [|split; [exact Hhi|]].
    + destruct Hhi as [Hhi| ->]; [now apply lt_le|].
      simpl in Hnth. injection Hnth as <- <-. exact H1.
    + intros j lo' hi' Hj Hlo' Hhi'.
      pose proof (binOf_unique c j lo' hi' Hj Hlo' Hhi'). congruence.
  - intros j lo hi Hj. rewrite Hcount.
    assert (nth j (map count emptyBins) 0%nat = 0%nat) as ->
        by (do 6 (destruct j as [|j]; [reflexivity|]); destruct j; reflexivity).
    simpl. f_equal. apply filter_ext. intros cp.
    symmetry. now apply binOf_inBar.
  - exact Hsum.
  - split; [|vm_compute; lia].
    rewrite Hsum. simpl. apply filter_length_le.
Qed.

(** *** The sign of the price change *)




Lemma plainStart_append (s t : string) :
  plainStart s -> s <> EmptyString -> plainStart (s ++ t).
Proof. destruct s; simpl; [congruence|auto]. Qed.








End ChangePointsViewFacts.

(** ** The correlation view *)

Module CorrelationAnalysisFacts.

Import JS Api Random CorrelationAnalysis Spec NumberFacts.

Local Open Scope list_scope.

(** *** Pearson's coefficient is symmetric *)

Lemma mul_comm (a b : number) : a * b = b * a.
Proof.
  apply Prim2SF_inj. rewrite !mul_spec. unfold SF64mul, SFmul.
  destruct (Prim2SF a) as [sa|sa| |sa ma ea], (Prim2SF b) as [sb|sb| |sb mb eb];
    try reflexivity; rewrite (xorb_comm sa sb); try reflexivity.
  now rewrite (Pos.mul_comm ma mb), (Z.add_comm ea eb).
Qed.

Lemma combine_swap {A B : Type} (xs : list A) (ys : list B) :
  combine ys xs = map (fun xy => (snd xy, fst xy)) (combine xs ys).
Proof.
  revert ys. induction xs as [|a xs IH]; intros [|b ys]; simpl; auto.
  now rewrite IH.
Qed.

Lemma pearson_sym (xs ys : list number) : pearson xs ys = pearson ys xs.
Proof.
  unfold pearson. cbv zeta.
  rewrite (combine_swap xs ys), !map_map. simpl.
  rewrite (mul_comm (total (map (fun xy => (snd xy - average ys)
                                           * (snd xy - average ys))
                               (combine xs ys)))).
  f_equal. f_equal. apply map_ext. intros [a b]. apply mul_comm.
Qed.

(** *** What the tables are made of *)

(** The matrix does not read the data. *)
Lemma matrix_ignores_the_data (data data' : Data) (g : Rng) :
  data.(correlationData) <> None -> data'.(correlationData) <> None ->
  calculateCorrelationMatrix data g = calculateCorrelationMatrix data' g.
Proof.
  unfold calculateCorrelationMatrix.
  destruct (correlationData data), (correlationData data'); congruence.
Qed.

Lemma matrix_entries (data : Data) (g : Rng) (i j : nat) :
  data.(correlationData) <> None -> (i < 6)%nat -> (j < 6)%nat ->
  nth (6 * i + j) (map value (fst (calculateCorrelationMatrix data g))) 0
  = if (i =? j)%nat then 1
    else g.(draws) ((5 * i + (if (j <? i)%nat then j else j - 1)) + g.(cursor))%nat
         * 2 - 1.
Proof.
  intros Hdata Hi Hj. unfold calculateCorrelationMatrix.
  destruct (correlationData data); [|congruence].
  do 6 (destruct i as [|i]; [do 6 (destruct j as [|j]; [reflexivity|]); lia|]).
  lia.
Qed.

Lemma matrix_takes_30_draws (data : Data) (g : Rng) :
  data.(correlationData) <> None ->
  cursor (snd (calculateCorrelationMatrix data g)) = (30 + g.(cursor))%nat
  /\ draws (snd (calculateCorrelationMatrix data g)) = g.(draws).
Proof.
  intros Hdata. unfold calculateCorrelationMatrix.
  destruct (correlationData data); [|congruence].
  split; reflexivity.
Qed.

Lemma matrix_changes_with_the_draws (data : Data) (g : Rng) :
  data.(correlationData) <> None ->
  g.(draws) g.(cursor) * 2 - 1 <> g.(draws) (30 + g.(cursor))%nat * 2 - 1 ->
  fst (calculateCorrelationMatrix data g)
  <> fst (calculateCorrelationMatrix data
            (snd (calculateCorrelationMatrix data g))).
Proof.
  intros Hdata Hdraws Heq.
  apply (f_equal (fun m => nth (6 * 0 + 1) (map value m) 0)) in Heq.
  rewrite !matrix_entries in Heq by (assumption || lia).
  destruct (matrix_takes_30_draws data g Hdata) as [Hcursor Hsame].
  rewrite Hcursor, Hsame in Heq. exact (Hdraws Heq).
Qed.

Lemma impact_table_reads_only_events (data data' : Data) (g : Rng) :
  data.(events) = data'.(events) ->
  getEventImpactCorrelation data g = getEventImpactCorrelation data' g.
Proof. unfold getEventImpactCorrelation. now intros ->. Qed.

Lemma period_correlations (newDate : string -> number) (data : Data) (g : Rng) :
  map period_correlation (fst (getTimePeriodAnalysis newDate data g))
  = map (fun k => toFixed (g.(draws) (k + g.(cursor))%nat * 2 - 1) 3)
        [0; 1; 2; 3]%nat.
Proof. reflexivity. Qed.

(** C1, against the code.  The entries of the correlation matrix are not
    statistics of the data: whatever the prices, events and change points,
    the matrix is the same, each entry off the diagonal being the next
    draw of [Math.random] scaled to [[-1, 1)]; the correlation figures of
    the event-impact table depend on the events and the draws alone.  On
    the sample data set the entry for (Price Volatility, Event Frequency)
    is -0.65625 and the entry for (Event Frequency, Price Volatility) is
    -0.875, so no choice of per-period series makes the matrix a matrix of
    Pearson coefficients, which is symmetric. *)
Theorem correlation_figures_are_random_draws :
  (forall data data' g,
      data.(correlationData) <> None -> data'.(correlationData) <> None ->
      calculateCorrelationMatrix data g = calculateCorrelationMatrix data' g)
  /\ (forall data g i j,
         data.(correlationData) <> None -> (i < 6)%nat -> (j < 6)%nat ->
         nth (6 * i + j) (map value (fst (calculateCorrelationMatrix data g))) 0
         = if (i =? j)%nat then 1
           else g.(draws) ((5 * i + (if (j <? i)%nat then j else j - 1))
                           + g.(cursor))%nat * 2 - 1)
  /\ (forall data data' g,
         data.(events) = data'.(events) ->
         getEventImpactCorrelation data g = getEventImpactCorrelation data' g)
  /\ fst (calculateCorrelationMatrix Samples.dataset Samples.lcg)
     = fst (calculateCorrelationMatrix Samples.otherDataset Samples.lcg)
  /\ map cell_correlation
         (fst (calculateCorrelationMatrix Samples.dataset Samples.lcg))
     <> map cell_correlation
            (fst (calculateCorrelationMatrix Samples.dataset Samples.lcg'))
  /\ map row_correlation
         (fst (getEventImpactCorrelation Samples.dataset Samples.lcg))
     <> map row_correlation
            (fst (getEventImpactCorrelation Samples.dataset Samples.lcg'))
  /\ In {| x := "Price Volatility"; y := "Event Frequency";
           value := -0.65625; cell_correlation := "-0.656" |}
        (fst (calculateCorrelationMatrix Samples.dataset Samples.lcg))
  /\ In {| x := "Event Frequency"; y := "Price Volatility";
           value := -0.875; cell_correlation := "-0.875" |}
        (fst (calculateCorrelationMatrix Samples.dataset Samples.lcg))
  /\ (forall series : string -> list number,
         ~ (forall c,
               In c (fst (calculateCorrelationMatrix Samples.dataset Samples.lcg)) ->
               c.(value) = pearson (series c.(x)) (series c.(y)))).
Proof.
  split; [intros; apply matrix_ignores_the_data; assumption|].
  split; [intros; apply matrix_entries; assumption|].
  split; [intros; apply impact_table_reads_only_events; assumption|].
  split.
  { assert (correlationData Samples.dataset <> None) as Hd
        by (intros Hx; discriminate Hx).
    assert (correlationData Samples.otherDataset <> None) as Hd'
        by (intros Hx; discriminate Hx).
    exact (f_equal fst (matrix_ignores_the_data _ _ Samples.lcg Hd Hd')). }
  split; [vm_compute; intros Hx; discriminate Hx|].
  split; [vm_compute; intros Hx; discriminate Hx|].
  assert (In {| x := "Price Volatility"; y := "Event Frequency";
                value := -0.65625; cell_correlation := "-0.656" |}
             (fst (calculateCorrelationMatrix Samples.dataset Samples.lcg)))
    as Hin1 by (vm_compute; right; left; reflexivity).
  assert (In {| x := "Event Frequency"; y := "Price Volatility";
                value := -0.875; cell_correlation := "-0.875" |}
             (fst (calculateCorrelationMatrix Samples.dataset Samples.lcg)))
    as Hin2 by (vm_compute; do 6 right; left; reflexivity).
  split; [exact Hin1|]. split; [exact Hin2|].
  intros series Hall.
  pose proof (Hall _ Hin1) as H1. pose proof (Hall _ Hin2) as H2.
  cbn [value x y] in H1, H2.
  rewrite (pearson_sym (series "Event Frequency"%string)) in H2.
  rewrite <- H2 in H1. apply (f_equal Prim2SF) in H1.
  vm_compute in H1. discriminate H1.
Qed.

(** C2, against the code.  The correlation computations are not
    deterministic.  Every run of the matrix takes thirty fresh draws of
    [Math.random] and every run of the time-period table four, so a
    second run reads other draws than the first and gives another matrix
    as soon as the draws differ: on the sample data set,
    rendering the view twice in a row gives three tables whose correlation
    figures all differ between the two renderings. *)
Theorem correlation_figures_change_between_runs :
  (forall data g,
      data.(correlationData) <> None ->
      cursor (snd (calculateCorrelationMatrix data g)) = (30 + g.(cursor))%nat
      /\ draws (snd (calculateCorrelationMatrix data g)) = g.(draws))
  /\ (forall data g,
         data.(correlationData) <> None ->
         g.(draws) g.(cursor) * 2 - 1
         <> g.(draws) (30 + g.(cursor))%nat * 2 - 1 ->
         fst (calculateCorrelationMatrix data g)
         <> fst (calculateCorrelationMatrix data
                   (snd (calculateCorrelationMatrix data g))))
  /\ (forall newDate data g,
         map period_correlation (fst (getTimePeriodAnalysis newDate data g))
         = map (fun k => toFixed (g.(draws) (k + g.(cursor))%nat * 2 - 1) 3)
               [0; 1; 2; 3]%nat)
  /\ (let first := render isoDate Samples.dataset Samples.lcg in
      let second := render isoDate Samples.dataset (snd first) in
      fst first <> fst second
      /\ map cell_correlation (fst (fst (fst first)))
         <> map cell_correlation (fst (fst (fst second)))
      /\ map row_correlation (snd (fst (fst first)))
         <> map row_correlation (snd (fst (fst second)))
      /\ map period_correlation (snd (fst first))
         <> map period_correlation (snd (fst second))).
Proof.
  split; [intros; apply matrix_takes_30_draws; assumption|].
  split; [intros; apply matrix_changes_with_the_draws; assumption|].
  split; [intros; apply period_correlations|].
  cbv zeta.
  assert (map period_correlation
              (snd (fst (render isoDate Samples.dataset Samples.lcg)))
          <> map period_correlation
                 (snd (fst (render isoDate Samples.dataset
                              (snd (render isoDate Samples.dataset Samples.lcg))))))
    as Hperiods by (vm_compute; intros Hx; discriminate Hx).
  split; [|split; [|split]].
  - intros Heq. apply Hperiods. rewrite <- Heq. reflexivity.
  - vm_compute. intros Hx. discriminate Hx.
  - vm_compute. intros Hx. discriminate Hx.
  - exact Hperiods.
Qed.

End CorrelationAnalysisFacts.

(** ** More on binary64 numbers: NaN, differences and the order *)

Module DifferenceFacts.

Import JS Spec Order Rounding NumberFacts.

Local Open Scope Z_scope.







Local Open Scope float_scope.


(** NaN compares with nothing, and what is computed from NaN is NaN. *)
Lemma nan_days (a b d w : number) :
  isNaN a = true \/ isNaN b = true ->
  ge ((a - b) / d) 0 && le ((a - b) / d) w = false.
Proof.
  intros Hnan. unfold ge, le.
  rewrite !FloatAxioms.leb_spec, div_spec, sub_spec.
  assert (SF64sub (Prim2SF a) (Prim2SF b) = S754_nan) as ->.
  { unfold isNaN in Hnan.
    destruct (Prim2SF a) as [?|?| |? ? ?], (Prim2SF b) as [?|?| |? ? ?];
      try reflexivity; destruct Hnan; discriminate. }
  reflexivity.
Qed.

Lemma abs_nan_lt (a b k : number) :
  isNaN a = true \/ isNaN b = true -> lt (abs (a - b)) k = false.
Proof.
  intros Hnan. unfold lt.
  rewrite FloatAxioms.ltb_spec, abs_spec, sub_spec.
  assert (SF64sub (Prim2SF a) (Prim2SF b) = S754_nan) as ->.
  { unfold isNaN in Hnan.
    destruct (Prim2SF a) as [?|?| |? ? ?], (Prim2SF b) as [?|?| |? ? ?];
      try reflexivity; destruct Hnan; discriminate. }
  reflexivity.
Qed.

(** An instant is less than a day away from itself. *)
Lemma abs_diag_lt_day (t : number) :
  isFinite t = true -> lt (abs (t - t)) (24 * 60 * 60 * 1000) = true.
Proof.
  intros Hfin. unfold lt.
  rewrite FloatAxioms.ltb_spec, abs_spec, (sub_diag t Hfin). reflexivity.
Qed.

Lemma gt_ge (x y : number) : gt x y = true -> ge x y = true.
Proof. exact (lt_le y x). Qed.

Lemma le_ge_trans (x y z : number) :
  ge x y = true -> ge y z = true -> ge x z = true.
Proof. intros Hxy Hyz. exact (le_trans z y x Hyz Hxy). Qed.

End DifferenceFacts.

(** ** The change-points view: thresholds, windows and panels *)

Module ChangePointsPanelsFacts.

Import JS Api ChangePointsView ChangePointsPanels ChangePointsMeasures Spec
       NumberFacts DifferenceFacts ChangePointsViewFacts.

Local Open Scope list_scope.

(** *** Filtering by a weaker test *)

Section Weaker.

Context {A : Type}.
Variables strong weak : A -> bool.
Hypothesis weaker : forall a, strong a = true -> weak a = true.

Lemma Subseq_filter_weaker (l : list A) :
  Subseq (filter strong l) (filter weak l).
Proof.
  induction l as [|a l IH]; simpl.
  - apply Subseq_nil.
  - destruct (strong a) eqn:Es.
    + rewrite (weaker a Es). now apply Subseq_keep.
    + destruct (weak a); [now apply Subseq_skip|exact IH].
Qed.

Lemma length_filter_weaker (l : list A) :
  (List.length (filter strong l) <= List.length (filter weak l))%nat.
Proof.
  induction l as [|a l IH]; simpl; [lia|].
  destruct (strong a) eqn:Es.
  - rewrite (weaker a Es). simpl. lia.
  - destruct (weak a); simpl; lia.
Qed.

End Weaker.

(** X1. Raising the confidence threshold only removes change points:
    what passes the higher threshold is a subsequence of what passes the
    lower one, so the list shown never grows and keeps its order. *)
Theorem raising_threshold_only_removes (v : View) (t' : number) :
  le v.(confidenceThreshold) t' = true ->
  Subseq (getFilteredChangePoints (withThreshold v t'))
         (getFilteredChangePoints v)
  /\ Nat.le (List.length (getFilteredChangePoints (withThreshold v t')))
            (List.length (getFilteredChangePoints v)).
Proof.
  intros Hle. unfold getFilteredChangePoints, withThreshold. simpl.
  assert (forall cp : ChangePoint,
             ge cp.(confidence) t' = true ->
             ge cp.(confidence) v.(confidenceThreshold) = true) as Hweak
      by (intros cp Hcp; exact (le_trans _ _ _ Hle Hcp)).
  split; [now apply Subseq_filter_weaker|now apply length_filter_weaker].
Qed.

Lemma raising_threshold_only_removes_witness :
  Subseq (getFilteredChangePoints (withThreshold Samples.assortedView 0.9))
         (getFilteredChangePoints Samples.assortedView)
  /\ Nat.le (List.length (getFilteredChangePoints
                             (withThreshold Samples.assortedView 0.9)))
            (List.length (getFilteredChangePoints Samples.assortedView)).
Proof.
  apply (raising_threshold_only_removes Samples.assortedView 0.9).
  vm_compute. reflexivity.
Defined.

(** X2. Widening the analysis window only adds price points to the two
    windows, so an analysis that is available for a window stays
    available for every wider one. *)
Theorem widening_window_keeps_analysis
  (newDate : string -> number) (v : View) (w' : number) (cp : ChangePoint) :
  le v.(analysisWindow) w' = true ->
  Subseq (beforeData newDate v cp) (beforeData newDate (withWindow v w') cp)
  /\ Subseq (afterData newDate v cp) (afterData newDate (withWindow v w') cp)
  /\ (getChangePointAnalysis newDate v cp <> None ->
      getChangePointAnalysis newDate (withWindow v w') cp <> None).
Proof.
  intros Hle.
  assert (forall d : number,
             ge d 0 && le d v.(analysisWindow) = true ->
             ge d 0 && le d w' = true) as Hweak.
  { intros d Hd. apply andb_true_iff in Hd. destruct Hd as [H0 Hw].
    apply andb_true_iff. split; [exact H0|exact (le_trans _ _ _ Hw Hle)]. }
  assert (Subseq (beforeData newDate v cp)
                 (beforeData newDate (withWindow v w') cp)) as Hb.
  { unfold beforeData, withWindow. simpl.
    apply Subseq_filter_weaker. intros p. apply Hweak. }
  assert (Subseq (afterData newDate v cp)
                 (afterData newDate (withWindow v w') cp)) as Ha.
  { unfold afterData, withWindow. simpl.
    apply Subseq_filter_weaker. intros p. apply Hweak. }
  split; [exact Hb|]. split; [exact Ha|].
  intros Hsome Hnone. apply Hsome.
  apply analysis_none_iff. apply analysis_none_iff in Hnone.
  assert (List.length (beforeData newDate v cp)
          <= List.length (beforeData newDate (withWindow v w') cp))%nat.
  { unfold beforeData, withWindow. simpl.
    apply length_filter_weaker. intros p. apply Hweak. }
  assert (List.length (afterData newDate v cp)
          <= List.length (afterData newDate (withWindow v w') cp))%nat.
  { unfold afterData, withWindow. simpl.
    apply length_filter_weaker. intros p. apply Hweak. }
  lia.
Qed.

Lemma widening_window_keeps_analysis_witness :
  getChangePointAnalysis isoDate (withWindow Samples.flatView 60)
    (Samples.cpOn "2020-01-15" 0.95) <> None.
Proof.
  refine (proj2 (proj2 (widening_window_keeps_analysis isoDate Samples.flatView
                          60 (Samples.cpOn "2020-01-15" 0.95) _)) _).
  - vm_compute. reflexivity.
  - vm_compute. intros Hx. discriminate Hx.
Defined.

(** X3. A series of fewer than 10 prices, the empty series among them,
    has no analysis for any change point and any window. *)
Theorem short_series_has_no_analysis
  (newDate : string -> number) (v : View) (cp : ChangePoint) :
  (List.length v.(data).(prices) < 10)%nat ->
  getChangePointAnalysis newDate v cp = None.
Proof.
  intros Hshort. apply analysis_none_iff. left.
  unfold beforeData. cbv zeta.
  eapply Nat.le_lt_trans; [apply filter_length_le|exact Hshort].
Qed.

Lemma short_series_has_no_analysis_witness :
  getChangePointAnalysis isoDate
    (Samples.view (Samples.daily 1 1 9 (fun _ => 100)) [] 0.7 90)
    (Samples.cpOn "2020-01-05" 0.95) = None.
Proof.
  apply short_series_has_no_analysis. vm_compute. lia.
Defined.

(** X4. A change point whose date is not a date has empty windows and no
    analysis; a price whose date is not a date is in no window. *)
Theorem invalid_dates_fall_out_of_the_windows
  (newDate : string -> number) (v : View) (cp : ChangePoint) :
  (isNaN (newDate cp.(cp_date)) = true ->
   beforeData newDate v cp = []
   /\ afterData newDate v cp = []
   /\ getChangePointAnalysis newDate v cp = None)
  /\ (forall p,
         isNaN (newDate p.(p_date)) = true ->
         ~ In p (beforeData newDate v cp) /\ ~ In p (afterData newDate v cp)).
Proof.
  split.
  - intros Hnan.
    assert (beforeData newDate v cp = []) as Hb.
    { unfold beforeData. cbv zeta.
      induction v.(data).(prices) as [|p l IH]; simpl; [reflexivity|].
      rewrite nan_days by (left; exact Hnan). exact IH. }
    assert (afterData newDate v cp = []) as Ha.
    { unfold afterData. cbv zeta.
      induction v.(data).(prices) as [|p l IH]; simpl; [reflexivity|].
      rewrite nan_days by (right; exact Hnan). exact IH. }
    split; [exact Hb|]. split; [exact Ha|].
    apply analysis_none_iff. rewrite Hb. simpl. lia.
  - intros p Hnan. unfold beforeData, afterData. cbv zeta.
    rewrite !filter_In.
    rewrite (nan_days _ (newDate p.(p_date))) by (right; exact Hnan).
    rewrite (nan_days (newDate p.(p_date))) by (left; exact Hnan).
    split; intros [_ H]; discriminate H.
Qed.

(** *** The summary cards *)








(** X5. When no change point passes the threshold, the summary cards
    show a total of 0 and an average confidence of NaN (0 divided by 0),
    no high-confidence point and no type. *)
Theorem stats_of_nothing (v : View) :
  getFilteredChangePoints v = [] ->
  getChangePointStats v
  = {| ChangePointsPanels.total := 0; avgConfidence := "NaN"; highConfidence := 0;
       typeDistribution := [] |}.
Proof.
  intros Hempty. unfold getChangePointStats. rewrite Hempty. reflexivity.
Qed.

Lemma stats_of_nothing_witness :
  getChangePointStats (withThreshold Samples.assortedView 1.5)
  = {| ChangePointsPanels.total := 0; avgConfidence := "NaN"; highConfidence := 0;
       typeDistribution := [] |}.
Proof.
  apply stats_of_nothing. vm_compute. reflexivity.
Defined.


(** *** The summary cards against the histogram *)

Lemma length_filter_filter {A : Type} (f g : A -> bool) (l : list A) :
  (List.length (filter f (filter g l)) <= List.length (filter f l))%nat.
Proof.
  induction l as [|a l IH]; simpl; [lia|].
  destruct (g a), (f a) eqn:Ef; simpl; rewrite ?Ef; simpl; lia.
Qed.

Lemma high_confidence_in_last_bar (c : number) :
  gt c 0.9 = true ->
  match binOf c with Some i => (i =? 4)%nat | None => false end = true.
Proof.
  intros Hgt. rewrite <- (binOf_inBar c 4 0.9 1.0 eq_refl).
  unfold inBar. rewrite (gt_ge _ _ Hgt). simpl. apply orb_true_r.
Qed.

(** X7. With a threshold of at least 0.5 the total of the summary cards
    is at most the sum of the bars of the confidence histogram, and equal
    to it when the threshold is 0.5; the high-confidence count is at most
    the height of the last bar. *)
Theorem cards_against_histogram (v : View) :
  ge v.(confidenceThreshold) 0.5 = true ->
  let stats := getChangePointStats v in
  let bars := map count (getConfidenceDistribution v) in
  (stats.(ChangePointsPanels.total) <= list_sum bars)%nat
  /\ (stats.(highConfidence) <= nth 4 bars 0)%nat
  /\ (v.(confidenceThreshold) = 0.5 ->
      stats.(ChangePointsPanels.total) = list_sum bars).
Proof.
  intros Hthr. cbv zeta.
  unfold getChangePointStats, getConfidenceDistribution. cbv zeta. simpl.
  destruct (tally_invariant v.(data).(changePoints) emptyBins eq_refl)
    as (_ & _ & Hsum & Hbar).
  rewrite Hsum, (Hbar 4%nat). simpl. unfold getFilteredChangePoints.
  split; [|split].
  - apply length_filter_weaker. intros cp Hcp.
    exact (le_ge_trans _ _ _ Hcp Hthr).
  - eapply Nat.le_trans; [apply length_filter_filter|].
    apply length_filter_weaker. intros cp. apply high_confidence_in_last_bar.
  - intros ->. reflexivity.
Qed.

Lemma cards_against_histogram_witness :
  let stats := getChangePointStats (withThreshold Samples.assortedView 0.5) in
  let bars :=
    map count (getConfidenceDistribution
                 (withThreshold Samples.assortedView 0.5)) in
  (stats.(ChangePointsPanels.total) <= list_sum bars)%nat
  /\ (stats.(highConfidence) <= nth 4 bars 0)%nat
  /\ (0.5 = 0.5 -> stats.(ChangePointsPanels.total) = list_sum bars).
Proof.
  apply (cards_against_histogram (withThreshold Samples.assortedView 0.5)).
  vm_compute. reflexivity.
Defined.

(** *** The marked price series *)

Section Marks.

Variable newDate : string -> number.

Lemma marked_iff (cps : list ChangePoint) (p : PricePoint) :
  (markPrice newDate cps p).(isChangePoint) = true
  <-> exists cp, In cp cps /\ withinADay newDate p cp = true.
Proof.
  unfold markPrice. cbv zeta. simpl.
  destruct (find (withinADay newDate p) cps) as [cp|] eqn:Hfind.
  - split; [intros _|reflexivity].
    exists cp. exact (find_some _ _ Hfind).
  - split; [intros Hx; discriminate Hx|].
    intros (cp & Hin & Hnear).
    pose proof (find_none _ _ Hfind cp Hin) as Hno. congruence.
Qed.

(** X8. The marked series has one point per price, in the order of the
    prices and with their dates and prices. A point is marked exactly
    when a change point that passes the threshold lies less than a day
    from it; a marked point carries the confidence and the type of such a
    change point, a confidence that passes the threshold; an unmarked
    point carries neither. *)
Theorem marked_series (v : View) :
  Forall2
    (fun p m =>
       m.(m_date) = p.(p_date) /\ m.(m_price) = p.(price)
       /\ (m.(isChangePoint) = true
           <-> exists cp, In cp (getFilteredChangePoints v)
                          /\ withinADay newDate p cp = true)
       /\ (m.(isChangePoint) = true ->
           exists cp, In cp (getFilteredChangePoints v)
                      /\ withinADay newDate p cp = true
                      /\ ge cp.(confidence) v.(confidenceThreshold) = true
                      /\ m.(changePointConfidence) = Some cp.(confidence)
                      /\ m.(changePointType) = Some cp.(cp_type))
       /\ (m.(isChangePoint) = false ->
           m.(changePointConfidence) = None /\ m.(changePointType) = None))
    v.(data).(prices) (getPriceDataWithChangePoints newDate v).
Proof.
  unfold getPriceDataWithChangePoints. cbv zeta.
  induction v.(data).(prices) as [|p ps IH]; simpl; constructor; [|exact IH].
  split; [reflexivity|]. split; [reflexivity|].
  split; [apply marked_iff|].
  unfold markPrice. cbv zeta. simpl.
  destruct (find (withinADay newDate p) (getFilteredChangePoints v))
    as [cp|] eqn:Hfind.
  - split; [intros _|intros Hx; discriminate Hx].
    destruct (find_some _ _ Hfind) as [Hin Hnear].
    exists cp. split; [exact Hin|]. split; [exact Hnear|].
    split; [|split; reflexivity].
    unfold getFilteredChangePoints in Hin. apply filter_In in Hin.
    exact (proj2 Hin).
  - split; [intros Hx; discriminate Hx|intros _; split; reflexivity].
Qed.

(** X9. A price dated, by the same text, on the day of a change point
    that passes the threshold is marked, provided the text is a date. *)
Theorem change_point_day_is_marked
  (v : View) (cp : ChangePoint) (p : PricePoint) :
  In cp (getFilteredChangePoints v) ->
  In p v.(data).(prices) ->
  p.(p_date) = cp.(cp_date) ->
  isFinite (newDate cp.(cp_date)) = true ->
  exists m,
    In m (getPriceDataWithChangePoints newDate v)
    /\ m.(m_date) = p.(p_date) /\ m.(m_price) = p.(price)
    /\ m.(isChangePoint) = true.
Proof.
  intros Hcp Hp Hsame Hfin.
  exists (markPrice newDate (getFilteredChangePoints v) p).
  split; [unfold getPriceDataWithChangePoints; now apply in_map|].
  split; [reflexivity|]. split; [reflexivity|].
  apply marked_iff. exists cp. split; [exact Hcp|].
  unfold withinADay. rewrite Hsame. now apply abs_diag_lt_day.
Qed.

(** X10. Dates that are not dates mark nothing: a price so dated is
    never marked, and when no change point that passes the threshold has a
    date, no price is marked. *)
Theorem invalid_dates_mark_nothing (v : View) :
  Forall2
    (fun p m =>
       (isNaN (newDate p.(p_date)) = true
        \/ forall cp, In cp (getFilteredChangePoints v) ->
                      isNaN (newDate cp.(cp_date)) = true) ->
       m.(isChangePoint) = false)
    v.(data).(prices) (getPriceDataWithChangePoints newDate v).
Proof.
  unfold getPriceDataWithChangePoints. cbv zeta.
  induction v.(data).(prices) as [|p ps IH]; simpl; constructor; [|exact IH].
  intros Hnan.
  destruct (isChangePoint (markPrice newDate (getFilteredChangePoints v) p))
    eqn:Hm; [|reflexivity].
  apply marked_iff in Hm. destruct Hm as (cp & Hin & Hnear).
  unfold withinADay in Hnear. rewrite abs_nan_lt in Hnear.
  - discriminate Hnear.
  - destruct Hnan as [Hp|Hall]; [right; exact Hp|left; now apply Hall].
Qed.

(** X11. Raising the confidence threshold only removes marks from the
    price series: a point marked under the higher threshold is marked
    under the lower one. *)
Theorem raising_threshold_only_unmarks (v : View) (t' : number) :
  le v.(confidenceThreshold) t' = true ->
  Forall2
    (fun m m' => m'.(isChangePoint) = true -> m.(isChangePoint) = true)
    (getPriceDataWithChangePoints newDate v)
    (getPriceDataWithChangePoints newDate (withThreshold v t')).
Proof.
  intros Hle. unfold getPriceDataWithChangePoints. cbv zeta.
  change (withThreshold v t').(data) with v.(data).
  induction v.(data).(prices) as [|p ps IH]; simpl; constructor; [|exact IH].
  rewrite !marked_iff. intros (cp & Hin & Hnear).
  exists cp. split; [|exact Hnear].
  unfold getFilteredChangePoints, withThreshold in *. simpl in Hin.
  apply filter_In in Hin. apply filter_In.
  split; [exact (proj1 Hin)|exact (le_trans _ _ _ Hle (proj2 Hin))].
Qed.

End Marks.

Lemma change_point_day_is_marked_witness :
  exists m,
    In m (getPriceDataWithChangePoints isoDate Samples.risingView)
    /\ m.(m_date) = "2020-01-15"%string /\ m.(m_price) = 75
    /\ m.(isChangePoint) = true.
Proof.
  refine (change_point_day_is_marked isoDate Samples.risingView
            (Samples.cpOn "2020-01-15" 0.85)
            {| p_date := "2020-01-15"; price := 75 |} _ _ _ _).
  - vm_compute. right. left. reflexivity.
  - vm_compute. do 14 right. left. reflexivity.
  - reflexivity.
  - vm_compute. reflexivity.
Defined.

Lemma raising_threshold_only_unmarks_witness :
  Forall2
    (fun m m' => m'.(isChangePoint) = true -> m.(isChangePoint) = true)
    (getPriceDataWithChangePoints isoDate Samples.risingView)
    (getPriceDataWithChangePoints isoDate
       (withThreshold Samples.risingView 0.9)).
Proof.
  apply (raising_threshold_only_unmarks isoDate Samples.risingView 0.9).
  vm_compute. reflexivity.
Defined.

(** *** The comparison panel *)

Section Panels.

Variable newDate : string -> number.

Ltac panel_cases :=
  split; [|split]; split;
  try (intros Hx; discriminate Hx); try (intros _; reflexivity).

(** X12. The comparison panel fails with a [TypeError] exactly when the
    view mode is "comparison" and the selected index is not an index of
    the list of change points that pass the threshold; it shows the
    "Insufficient data" notice exactly when the selected change point has
    no analysis; it is absent exactly when the view mode is another or no
    card is selected. *)
Theorem comparison_panel_outcomes (ui : Ui) :
  (comparisonPanel newDate ui = Throws
   <-> ui.(viewMode) = "comparison"%string
       /\ exists i, ui.(selectedPoint) = Some i
                    /\ (List.length (getFilteredChangePoints ui.(view)) <= i)%nat)
  /\ (comparisonPanel newDate ui = InsufficientData
      <-> ui.(viewMode) = "comparison"%string
          /\ exists i cp,
               ui.(selectedPoint) = Some i
               /\ nth_error (getFilteredChangePoints ui.(view)) i = Some cp
               /\ getChangePointAnalysis newDate ui.(view) cp = None)
  /\ (comparisonPanel newDate ui = Hidden
      <-> ui.(viewMode) <> "comparison"%string \/ ui.(selectedPoint) = None).
Proof.
  unfold comparisonPanel.
  destruct (String.eqb_spec ui.(viewMode) "comparison") as [Hmode|Hmode].
  - destruct ui.(selectedPoint) as [i|].
    + destruct (nth_error (getFilteredChangePoints ui.(view)) i) as [cp|]
        eqn:Hnth.
      * assert (i < List.length (getFilteredChangePoints ui.(view)))%nat
          as Hlt by (apply nth_error_Some; congruence).
        destruct (getChangePointAnalysis newDate ui.(view) cp) as [a|] eqn:Ha.
        -- panel_cases.
           ++ intros (_ & j & Hj & Hlen). injection Hj as <-. lia.
           ++ intros (_ & j & cp' & Hj & Hcp' & Hnone).
              injection Hj as <-. congruence.
           ++ intros [Hno|Hno]; [contradiction|discriminate Hno].
        -- panel_cases.
           ++ intros (_ & j & Hj & Hlen). injection Hj as <-. lia.
           ++ intros _. split; [exact Hmode|]. exists i, cp. auto.
           ++ intros [Hno|Hno]; [contradiction|discriminate Hno].
      * apply nth_error_None in Hnth.
        panel_cases.
        -- intros _. split; [exact Hmode|]. exists i. auto.
        -- intros (_ & j & cp' & Hj & Hcp' & _). injection Hj as <-.
           apply nth_error_None in Hnth. congruence.
        -- intros [Hno|Hno]; [contradiction|discriminate Hno].
    + panel_cases; auto.
      * intros (_ & j & Hj & _). discriminate Hj.
      * intros (_ & j & cp & Hj & _). discriminate Hj.
  - panel_cases; auto.
    + intros (Hyes & _). contradiction.
    + intros (Hyes & _). contradiction.
Qed.

(** X13. The selection outlives a change of threshold: after a click on
    a card that was not selected, a choice of threshold that leaves no
    change point at the index of the card, and a switch to the comparison
    mode, the panel fails. *)
Theorem stale_selection_throws (ui ui' : Ui) (index option : nat) :
  ui.(selectedPoint) <> Some index ->
  chooseConfidence (clickCard ui index) option = Some ui' ->
  (List.length (getFilteredChangePoints ui'.(view)) <= index)%nat ->
  comparisonPanel newDate (chooseViewMode ui' "comparison") = Throws.
Proof.
  intros Hnew Hchoose Hshort.
  unfold chooseConfidence in Hchoose.
  destruct (selectConfidence (clickCard ui index).(view) option) as [v'|];
    [|discriminate Hchoose].
  injection Hchoose as <-. simpl in *.
  unfold comparisonPanel. simpl.
  assert (match ui.(selectedPoint) with
          | Some i => if (i =? index)%nat then None else Some index
          | None => Some index
          end = Some index) as ->.
  { destruct ui.(selectedPoint) as [i|]; [|reflexivity].
    destruct (Nat.eqb_spec i index) as [->|]; [contradiction|reflexivity]. }
  apply nth_error_None in Hshort. rewrite Hshort. reflexivity.
Qed.

(** X14. Without a change of threshold, the card clicked in the detailed
    view is the change point the comparison panel then analyses: the
    panel does not fail, and shows the analysis of that change point or
    the notice. *)
Theorem fresh_selection_is_analysed
  (ui : Ui) (index : nat) (cp : ChangePoint) :
  ui.(selectedPoint) <> Some index ->
  nth_error (getFilteredChangePoints ui.(view)) index = Some cp ->
  comparisonPanel newDate (chooseViewMode (clickCard ui index) "comparison")
  = match getChangePointAnalysis newDate ui.(view) cp with
    | Some analysis => Comparison analysis
    | None => InsufficientData
    end.
Proof.
  intros Hnew Hcard. unfold comparisonPanel. simpl.
  assert (match ui.(selectedPoint) with
          | Some i => if (i =? index)%nat then None else Some index
          | None => Some index
          end = Some index) as ->.
  { destruct ui.(selectedPoint) as [i|]; [|reflexivity].
    destruct (Nat.eqb_spec i index) as [->|]; [contradiction|reflexivity]. }
  rewrite Hcard. reflexivity.
Qed.

End Panels.

Lemma stale_selection_throws_witness :
  comparisonPanel isoDate
    (chooseViewMode
       {| view := withThreshold Samples.risingView 0.9;
          viewMode := "detailed"; selectedPoint := Some 1%nat |}
       "comparison") = Throws.
Proof.
  refine (stale_selection_throws isoDate
            {| view := Samples.risingView; viewMode := "detailed";
               selectedPoint := None |}
            _ 1 4 _ _ _).
  - intros Hx. discriminate Hx.
  - vm_compute. reflexivity.
  - vm_compute. lia.
Defined.

Lemma fresh_selection_is_analysed_witness :
  comparisonPanel isoDate
    (chooseViewMode
       (clickCard {| view := Samples.risingView; viewMode := "detailed";
                     selectedPoint := None |} 1) "comparison")
  = match getChangePointAnalysis isoDate Samples.risingView
            (Samples.cpOn "2020-01-15" 0.85) with
    | Some analysis => Comparison analysis
    | None => InsufficientData
    end.
Proof.
  refine (fresh_selection_is_analysed isoDate
            {| view := Samples.risingView; viewMode := "detailed";
               selectedPoint := None |}
            1 (Samples.cpOn "2020-01-15" 0.85) _ _).
  - intros Hx. discriminate Hx.
  - vm_compute. reflexivity.
Defined.

End ChangePointsPanelsFacts.

(** ** The correlation view: the shape of the three tables *)

Module CorrelationTablesFacts.

Import JS Api Random CorrelationAnalysis Order CorrelationParts NumberFacts
       DifferenceFacts.

Local Open Scope list_scope.

(** *** Loops that draw *)



Lemma mapM_Forall2 {A B : Type} (f : A -> M B) (R : A -> B -> Prop)
      (l : list A) :
  (forall a g, R a (fst (f a g))) ->
  forall g, Forall2 R l (fst (mapM f l g)).
Proof.
  intros Hf. induction l as [|a l IH]; intros g; simpl; [constructor|].
  unfold bind. destruct (f a g) as [b g'] eqn:E.
  pose proof (Hf a g) as Hb. rewrite E in Hb. simpl in Hb.
  pose proof (IH g') as Hbs.
  destruct (mapM f l g') as [bs g'']. simpl in *.
  constructor; assumption.
Qed.

(** *** The object of event types *)


Section Update.

Variable f : TypeEntry -> TypeEntry.
Hypothesis f_counts : forall e, (f e).(te_count) = S e.(te_count).





End Update.












(** *** The sort *)

Section Sort.

Context {A : Type}.
Variable compare : A -> A -> number.



Hypothesis compare_asym :
  forall a b, gt (compare a b) 0 = true -> gt (compare b a) 0 = false.




End Sort.








(** *** The event-impact table *)




(** *** The time-period table *)

Section Periods.

Variable newDate : string -> number.

Lemma toFixed_zero : toFixed 0 2 = "0.00"%string.
Proof. vm_compute. reflexivity. Qed.

Lemma not_a_date_in_no_period (p : Period) (date : string) :
  isNaN (newDate date) = true -> inPeriod newDate p date = false.
Proof.
  intros Hnan. unfold inPeriod, ge, le.
  rewrite !FloatAxioms.leb_spec. unfold isNaN in Hnan.
  destruct (Prim2SF (newDate date)) as [?|?| |? ? ?]; try discriminate Hnan.
  destruct (Prim2SF (newDate p.(start))); reflexivity.
Qed.

Lemma period_rows (data : Data) (g : Rng) :
  Forall2 (rowOfPeriod newDate data) periods (fst (getTimePeriodAnalysis newDate data g)).
Proof.
  unfold getTimePeriodAnalysis. apply mapM_Forall2. intros p g0.
  unfold rowOfPeriod, bind, random, ret.
  cbn [fst period eventCount changePointCount avgPrice volatility].
  split; [reflexivity|]. split; [reflexivity|]. split; [reflexivity|]. split.
  - intros ->. exact toFixed_zero.
  - intros Hshort.
    destruct (1 <? List.length
                     (filter (fun price => inPeriod newDate p price.(p_date))
                             data.(prices)))%nat eqn:E.
    + apply Nat.ltb_lt in E. lia.
    + exact toFixed_zero.
Qed.

(** X18. The time-period table has one row per period, in the order of
    the periods and under their names; its counts are at most the numbers
    of events and of change points; a period without a price shows an
    average price of 0.00, and a period with at most one price a
    volatility of 0.00. The table takes four draws of [Math.random]. *)
Theorem period_table_rows (data : Data) (g : Rng) :
  let run := getTimePeriodAnalysis newDate data g in
  map period (fst run) = map period_name periods
  /\ Forall2
       (fun p row =>
          let periodPrices :=
            filter (fun price => inPeriod newDate p price.(p_date))
                   data.(prices) in
          (row.(eventCount) <= List.length data.(events))%nat
          /\ (row.(changePointCount) <= List.length data.(changePoints))%nat
          /\ (periodPrices = [] -> row.(avgPrice) = "0.00"%string)
          /\ ((List.length periodPrices <= 1)%nat ->
              row.(volatility) = "0.00"%string))
       periods (fst run)
  /\ cursor (snd run) = (4 + g.(cursor))%nat
  /\ draws (snd run) = g.(draws).
Proof.
  cbv zeta. pose proof (period_rows data g) as Hrows.
  split; [|split; [|split; reflexivity]].
  - revert Hrows. generalize (fst (getTimePeriodAnalysis newDate data g)).
    generalize periods. induction 1 as [|p row ps rows Hrow _ IH]; simpl;
      [reflexivity|].
    rewrite IH. now rewrite (proj1 Hrow).
  - revert Hrows. generalize (fst (getTimePeriodAnalysis newDate data g)).
    generalize periods. induction 1 as [|p row ps rows Hrow _ IH];
      constructor; [|exact IH].
    destruct Hrow as (_ & He & Hc & Ha & Hv).
    rewrite He, Hc.
    split; [apply filter_length_le|]. split; [apply filter_length_le|].
    split; assumption.
Qed.

(** X19. Consecutive periods overlap: the events dated from the start of
    the later period to the end of the earlier one are counted in the rows
    of both, whenever the bounds of the two periods are dates in the
    order of time. *)
Theorem shared_years_are_counted_twice
  (data : Data) (g : Rng) (k : nat) (p q : Period) (row row' : PeriodRow) :
  nth_error periods k = Some p ->
  nth_error periods (S k) = Some q ->
  le (newDate p.(start)) (newDate q.(start)) = true ->
  le (newDate p.(finish)) (newDate q.(finish)) = true ->
  nth_error (fst (getTimePeriodAnalysis newDate data g)) k = Some row ->
  nth_error (fst (getTimePeriodAnalysis newDate data g)) (S k) = Some row' ->
  let shared :=
    filter (fun event =>
              ge (newDate event.(e_date)) (newDate q.(start))
              && le (newDate event.(e_date)) (newDate p.(finish)))
           data.(events) in
  (List.length shared <= row.(eventCount))%nat
  /\ (List.length shared <= row'.(eventCount))%nat.
Proof.
  intros Hp Hq Hstart Hfinish Hrow Hrow'. cbv zeta.
  pose proof (period_rows data g) as Hrows.
  assert (forall j r s,
             nth_error periods j = Some r ->
             nth_error (fst (getTimePeriodAnalysis newDate data g)) j = Some s ->
             rowOfPeriod newDate data r s) as Hat.
  { revert Hrows. generalize (fst (getTimePeriodAnalysis newDate data g)).
    generalize periods. induction 1 as [|p0 row0 ps rows Hrow0 _ IH];
      intros [|j] r s Hr Hs; simpl in Hr, Hs; try discriminate.
    - injection Hr as <-. injection Hs as <-. exact Hrow0.
    - exact (IH j r s Hr Hs). }
  destruct (Hat k p row Hp Hrow) as (_ & -> & _).
  destruct (Hat (S k) q row' Hq Hrow') as (_ & -> & _).
  split; apply ChangePointsPanelsFacts.length_filter_weaker; intros event Hin;
    apply andb_true_iff in Hin; destruct Hin as [Hge Hle];
    unfold inPeriod; apply andb_true_iff; split.
  - exact (le_trans _ _ _ Hstart Hge).
  - exact Hle.
  - exact Hge.
  - exact (le_trans _ _ _ Hle Hfinish).
Qed.

(** X20. An event or a change point whose date is not a date is counted
    in no row of the time-period table. *)
Theorem undated_records_are_not_counted (data : Data) (g : Rng) :
  Forall
    (fun row =>
       (row.(eventCount)
        <= List.length (filter (fun event => negb (isNaN (newDate event.(e_date))))
                               data.(events)))%nat
       /\ (row.(changePointCount)
           <= List.length (filter (fun cp => negb (isNaN (newDate cp.(cp_date))))
                                  data.(changePoints)))%nat)
    (fst (getTimePeriodAnalysis newDate data g)).
Proof.
  pose proof (period_rows data g) as Hrows.
  revert Hrows. generalize (fst (getTimePeriodAnalysis newDate data g)).
  generalize periods. induction 1 as [|p row ps rows Hrow _ IH];
    constructor; [|exact IH].
  destruct Hrow as (_ & -> & -> & _).
  split; apply ChangePointsPanelsFacts.length_filter_weaker; intros a Hin;
    destruct (isNaN (newDate _)) eqn:Hnan; try reflexivity;
    rewrite (not_a_date_in_no_period p _ Hnan) in Hin; discriminate Hin.
Qed.

End Periods.

Lemma shared_years_are_counted_twice_witness :
  let shared :=
    filter (fun event =>
              ge (isoDate event.(e_date)) (isoDate "2021-01-01")
              && le (isoDate event.(e_date)) (isoDate "2021-12-31"))
           Samples.someEvents in
  (List.length shared <= 3)%nat /\ (List.length shared <= 2)%nat.
Proof.
  refine (shared_years_are_counted_twice isoDate Samples.dataset Samples.lcg 0
            {| period_name := "2020-2021"; start := "2020-01-01";
               finish := "2021-12-31" |}
            {| period_name := "2021-2022"; start := "2021-01-01";
               finish := "2022-12-31" |}
            {| period := "2020-2021"; eventCount := 3; changePointCount := 6;
               avgPrice := "84.15"; volatility := "13.46";
               period_correlation := "-0.656" |}
            {| period := "2021-2022"; eventCount := 2; changePointCount := 0;
               avgPrice := "0.00"; volatility := "0.00";
               period_correlation := "0.500" |}
            _ _ _ _ _ _); vm_compute; reflexivity.
Defined.

(** *** The heat map *)




End CorrelationTablesFacts.
